(** * EMA crossover alerts: the signal-detection pipeline of [emacrossover.py]

    A shallow embedding of [src/emacrossover.py].  Prices and averages are
    Python floats in the program; here they are exact rationals ([Q]), so
    rounding is not part of the model and equality of numbers is [Qeq]
    ([==]) unless a statement says otherwise.  The theorems that speak of
    computed averages either hold of the rounded values too (they use
    only comparisons, positions in the series or the skip of an unchanged
    value) or, as the recurrence of the EMA engine, hold of them up to
    rounding.  The two web services the
    script talks to are an environment; what the script does with their
    answers is translated function by function. *)

From Stdlib Require Import ZArith QArith Qfield List String Bool Lia Lqa.
Import ListNotations.

Local Open Scope Q_scope.

(** ** Exceptions and results *)

(** The exception classes the script can meet: [ConnectionError] (raised by
    [requests.get] and [requests.post]), [HTTPError] (raised by
    [raise_for_status]) and [JSONDecodeError] (raised by [response.json()],
    a [RequestException] since requests 2.27) are subclasses of
    [requests.exceptions.RequestException]; [ValueError] (of [ewm] on a
    span below one) and [IndexError] (of [iloc]) come from pandas and are
    not. *)
Inductive exn : Type :=
| ConnectionError
| HTTPError
| JSONDecodeError
| ValueError
| IndexError.

(** [isinstance(e, requests.exceptions.RequestException)]. *)
Definition is_RequestException (e : exn) : bool :=
  match e with
  | ConnectionError | HTTPError | JSONDecodeError => true
  | ValueError | IndexError => false
  end.

Inductive result (A : Type) : Type :=
| Ok (a : A)
| Raise (e : exn).

Arguments Ok {A} a.
Arguments Raise {A} e.

(** ** Configuration constants (lines 25-27) *)

Definition SYMBOL : string := "BTCUSDT".
Definition EMA_FAST : Z := 30.
Definition EMA_SLOW : Z := 60.

(** ** Data *)

(** One row of the frame [fetch_klines] returns.  The frame has twelve
    columns; the script reads only [close] and [close_time], [open_time]
    is converted as well, the other nine are carried along unread and are
    left out. *)
Record kline : Type := mk_kline {
  open_time : Z;      (* epoch milliseconds *)
  close : Q;
  close_time : Z      (* epoch milliseconds *)
}.

Definition DataFrame : Type := list kline.

(** Comparisons of two numbers, as booleans. *)
Definition Qgtb (a b : Q) : bool := negb (Qle_bool a b).
Definition Qltb (a b : Q) : bool := negb (Qle_bool b a).
Definition Qleb (a b : Q) : bool := Qle_bool a b.
Definition Qgeb (a b : Q) : bool := Qle_bool b a.

(** ** The EMA engine (lines 56-58)

    [calculate_ema] is the single call
    [df[column].ewm(span=period, adjust=False).mean()].  What follows is
    that pandas call for [adjust=False] (and the defaults [ignore_na=False],
    [min_periods=0]) on a series without missing values: the span is turned
    into a centre of mass, rejected when below one, and the aggregation
    loop carries one running value [weighted]. *)

(** [get_center_of_mass]: [span < 1] is a [ValueError], else
    [com = (span - 1) / 2]. *)
Definition get_center_of_mass (span : Z) : result Q :=
  if (span <? 1)%Z then Raise ValueError
  else Ok ((inject_Z span - 1) / 2).

(** One turn of the aggregation loop for [adjust=False]: the old weight is
    [1 * (1 - alpha)], the new weight is [alpha], the running value is left
    alone when the new observation equals it, and otherwise replaced by the
    weighted sum divided by the sum of the two weights. *)
Definition ewm_step (alpha weighted cur : Q) : Q :=
  let old_wt_factor := 1 - alpha in
  let new_wt := alpha in
  let old_wt := 1 * old_wt_factor in
  if Qeq_bool weighted cur then weighted
  else (old_wt * weighted + new_wt * cur) / (old_wt + new_wt).

Fixpoint ewm_loop (alpha weighted : Q) (vals : list Q) : list Q :=
  match vals with
  | [] => []
  | cur :: rest =>
      let weighted' := ewm_step alpha weighted cur in
      weighted' :: ewm_loop alpha weighted' rest
  end.

Definition ewm_mean (com : Q) (vals : list Q) : list Q :=
  let alpha := 1 / (1 + com) in
  match vals with
  | [] => []
  | v0 :: rest => v0 :: ewm_loop alpha v0 rest
  end.

(** [calculate_ema(df, period, column="close")]; the script never passes
    another column. *)
Definition calculate_ema (df : DataFrame) (period : Z) : result (list Q) :=
  match get_center_of_mass period with
  | Raise e => Raise e
  | Ok com => Ok (ewm_mean com (map close df))
  end.

(** ** Snapshots, crossover and alignment *)

(** The dictionary [get_ema_values] returns (lines 69-76). *)
Record EMAValues : Type := mk_ema_values {
  ema_fast : Q;
  ema_slow : Q;
  ema_fast_prev : Q;
  ema_slow_prev : Q;
  ev_close_time : Z;
  close_price : Q
}.

Inductive direction : Type := LONG | SHORT.

Definition direction_str (d : direction) : string :=
  match d with LONG => "LONG" | SHORT => "SHORT" end.

(** [check_ema_crossover] (lines 79-97); [None] is Python's [None]. *)
Definition check_ema_crossover (current : EMAValues) : option direction :=
  let fast_now := ema_fast current in
  let slow_now := ema_slow current in
  let fast_prev := ema_fast_prev current in
  let slow_prev := ema_slow_prev current in
  if Qleb fast_prev slow_prev && Qgtb fast_now slow_now then Some LONG
  else if Qgeb fast_prev slow_prev && Qltb fast_now slow_now then Some SHORT
  else None.


(** The dictionary [check_htf_alignment] returns (lines 116-123); the keys
    ["15m_aligned"], ["15m_ema_fast"], ... get the prefix [h]. *)
Record HTFData : Type := mk_htf_data {
  h15m_aligned : bool;
  h30m_aligned : bool;
  h15m_ema_fast : Q;
  h15m_ema_slow : Q;
  h30m_ema_fast : Q;
  h30m_ema_slow : Q
}.

(** Lines 109-123: the two ordering tests and the dictionary, once both
    higher-timeframe values are at hand. *)
Definition htf_dict (d : direction) (htf_15m htf_30m : EMAValues) : HTFData :=
  let '(aligned_15m, aligned_30m) :=
    match d with
    | LONG =>
        (Qgtb (ema_fast htf_15m) (ema_slow htf_15m),
         Qgtb (ema_fast htf_30m) (ema_slow htf_30m))
    | SHORT =>
        (Qltb (ema_fast htf_15m) (ema_slow htf_15m),
         Qltb (ema_fast htf_30m) (ema_slow htf_30m))
    end in
  {| h15m_aligned := aligned_15m;
     h30m_aligned := aligned_30m;
     h15m_ema_fast := ema_fast htf_15m;
     h15m_ema_slow := ema_slow htf_15m;
     h30m_ema_fast := ema_fast htf_30m;
     h30m_ema_slow := ema_slow htf_30m |}.

(** [series.iloc[i]]: a negative position counts from the end, a position
    outside the series is an [IndexError]. *)
Definition iloc {A : Type} (s : list A) (i : Z) : result A :=
  let n := Z.of_nat (List.length s) in
  let j := if (i <? 0)%Z then (n + i)%Z else i in
  if ((j <? 0) || (n <=? j))%Z then Raise IndexError
  else match nth_error s (Z.to_nat j) with
       | Some x => Ok x
       | None => Raise IndexError
       end.

(** ** Text

    An f-string whose holes are all strings is the string itself.  Where a
    hole is a number or a time, the formatted digits are not computed: the
    text keeps the hole with its value. *)
Inductive piece : Type :=
| Lit (s : string)
| Money (q : Q)          (* [{q:,.2f}] *)
| Stamp (t : Z)          (* [strftime('%Y-%m-%d %H:%M:%S')] of the time [t] *)
| Int (n : Z)            (* [{n}] *)
| Exc (e : exn).         (* [{e}] *)

Definition text : Type := list piece.

Definition nl : string := String (Ascii.ascii_of_nat 10) EmptyString.

(** [format_alert_message] (lines 145-170). *)
Definition format_alert_message (d : direction) (data_5m : EMAValues)
    (htf_data : HTFData) : text :=
  let emoji := match d with LONG => "🟢" | SHORT => "🔴" end%string in
  let mark (b : bool) := (if b then "✅" else "❌")%string in
  [ Lit (nl ++ emoji ++ " <b>EMA CROSSOVER ALERT - " ++ direction_str d
         ++ "</b> " ++ emoji ++ nl ++ nl
         ++ "<b>Symbol:</b> " ++ SYMBOL ++ nl
         ++ "<b>Signal Time:</b> ");
    Stamp (ev_close_time data_5m);
    Lit (" UTC" ++ nl ++ "<b>Close Price:</b> $");
    Money (close_price data_5m);
    Lit (nl ++ nl ++ "<b>5m EMA Status:</b>" ++ nl ++ "• EMA");
    Int EMA_FAST; Lit ": "; Money (ema_fast data_5m);
    Lit (nl ++ "• EMA"); Int EMA_SLOW; Lit ": "; Money (ema_slow data_5m);
    Lit (nl ++ nl ++ "<b>15m EMA Alignment:</b> "
         ++ mark (h15m_aligned htf_data) ++ nl ++ "• EMA");
    Int EMA_FAST; Lit ": "; Money (h15m_ema_fast htf_data);
    Lit (nl ++ "• EMA"); Int EMA_SLOW; Lit ": "; Money (h15m_ema_slow htf_data);
    Lit (nl ++ nl ++ "<b>30m EMA Alignment:</b> "
         ++ mark (h30m_aligned htf_data) ++ nl ++ "• EMA");
    Int EMA_FAST; Lit ": "; Money (h30m_ema_fast htf_data);
    Lit (nl ++ "• EMA"); Int EMA_SLOW; Lit ": "; Money (h30m_ema_slow htf_data);
    Lit (nl ++ nl ++ "<i>All timeframes aligned - Signal confirmed!</i>" ++ nl)
  ]%string.

(** The three short status messages of [main] (lines 185, 189, 196, 201). *)
Definition msg_no_crossover : text :=
  [Lit "<p>No crossover detected on 5m timeframe.</p>"].

Definition msg_detected (crossover : direction) : text :=
  [Lit ("<p>" ++ direction_str crossover
        ++ " crossover detected on 5m! Checking HTF alignment.</p>")%string].

Definition msg_not_aligned (tf : string) (crossover : direction) : text :=
  [Lit ("<p>" ++ tf ++ " not aligned for " ++ direction_str crossover
        ++ " - skipping signal</p>")%string].

(** ** The outside world *)

(** What an HTTP call comes back with: no answer at all, or a status code
    and a body. *)
Inductive http_response (B : Type) : Type :=
| NoResponse
| Response (code : Z) (content : B).

Arguments NoResponse {B}.
Arguments Response {B} code content.

(** The bodies of a klines answer that the model covers.  [NotJson] is a
    body [response.json()] cannot decode.  [ObjectBody] is a JSON object
    none of whose keys is one of the twelve column names, such as the
    endpoint's error payload with its keys code and msg.  [Klines rows] is
    a JSON array of twelve-field rows whose close is a decimal number and
    whose open and close times are integers, in the order received.  JSON
    of any other kind (rows of another width, a close that is not a
    number, an object that has a column name as key) is not represented:
    what pandas does with it is outside the model. *)
Inductive klines_body : Type :=
| NotJson
| ObjectBody
| Klines (rows : list kline).

(** What [response.json()] returns on the bodies it can decode. *)
Inductive json_data : Type :=
| Object
| Rows (rows : list kline).

(** The environment of one run.  [binance] answers a klines request by its
    parameters and [telegram] answers the [n]-th post (counting from 0) of
    the run by its text; [now] is the clock read at line 175. *)
Record env : Type := mk_env {
  now : Z;
  binance : string -> string -> Z -> http_response klines_body;
  telegram : nat -> text -> http_response unit
}.

(** What a run does that can be seen from outside, in order. *)
Inductive event : Type :=
| Get (symbol interval : string) (limit : Z)   (* GET /api/v3/klines *)
| Post (message : text)                        (* POST .../sendMessage *)
| Print (line : text).                         (* standard output *)

Definition is_post (ev : event) : bool :=
  match ev with Post _ => true | _ => false end.

(** ** The monad: a trace of events, and exceptions *)

Definition M (A : Type) : Type := list event -> result A * list event.

Definition ret {A : Type} (a : A) : M A := fun tr => (Ok a, tr).

Definition raise {A : Type} (e : exn) : M A := fun tr => (Raise e, tr).

Definition bind {A B : Type} (m : M A) (k : A -> M B) : M B :=
  fun tr =>
    match m tr with
    | (Ok a, tr') => k a tr'
    | (Raise e, tr') => (Raise e, tr')
    end.

Definition lift {A : Type} (r : result A) : M A := fun tr => (r, tr).

Definition emit (ev : event) : M unit := fun tr => (Ok tt, tr ++ [ev]).

(** [try: m except ... as e: h e]: [h e] is [None] when no clause matches
    [e], and the exception goes on. *)
Definition try_except {A : Type} (m : M A) (h : exn -> option (M A)) : M A :=
  fun tr =>
    match m tr with
    | (Ok a, tr') => (Ok a, tr')
    | (Raise e, tr') =>
        match h e with
        | Some handler => handler tr'
        | None => (Raise e, tr')
        end
    end.

Declare Scope monad_scope.
Delimit Scope monad_scope with monad.
Notation "x <- m ;; k" := (bind m (fun x => k))
  (at level 61, m at next level, right associativity) : monad_scope.
Notation "m ;;; k" := (bind m (fun _ => k))
  (at level 61, right associativity) : monad_scope.
Local Open Scope monad_scope.

Definition print (line : text) : M unit := emit (Print line).

(** A response object that did arrive: its status code and its body. *)
Record Response_obj (B : Type) : Type := mk_response {
  status_code : Z;
  body : B
}.

Arguments mk_response {B} status_code body.
Arguments status_code {B} r.
Arguments body {B} r.

(** [response.raise_for_status()]: codes 400 to 599 raise [HTTPError]. *)
Definition raise_for_status {B : Type} (response : Response_obj B) : M unit :=
  if ((400 <=? status_code response) && (status_code response <? 600))%Z
  then raise HTTPError else ret tt.

(** ** The script's effectful functions *)

Section Script.

Variable E : env.

(** [requests.get(url, params=params)] on the klines endpoint: the
    request is seen outside, and no answer is a [ConnectionError]. *)
Definition requests_get (symbol interval : string) (limit : Z)
    : M (Response_obj klines_body) :=
  emit (Get symbol interval limit) ;;;
  match binance E symbol interval limit with
  | NoResponse => raise ConnectionError
  | Response c b => ret (mk_response c b)
  end.

(** [requests.post(url, json=payload)] on the sendMessage endpoint.  The
    number of posts made so far is read off the trace. *)
Definition requests_post (message : text) : M (Response_obj unit) :=
  fun tr =>
    let n := List.length (filter is_post tr) in
    (emit (Post message) ;;;
     match telegram E n message with
     | NoResponse => raise ConnectionError
     | Response c b => ret (mk_response c b)
     end) tr.

(** [response.json()] (line 41). *)
Definition response_json (response : Response_obj klines_body)
    : M json_data :=
  match body response with
  | NotJson => raise JSONDecodeError
  | ObjectBody => ret Object
  | Klines rows => ret (Rows rows)
  end.

(** Lines 43-51: the frame is built and its columns converted.  From an
    array of rows the frame has one row per row received.  From an object
    that has none of the [columns] as key, [pd.DataFrame(data, columns=...)]
    is the frame with those columns and no row, on which the three
    conversions do nothing. *)
Definition to_frame (data : json_data) : M DataFrame :=
  match data with
  | Rows rows => ret rows
  | Object => ret []
  end.

(** [fetch_klines] (lines 30-53). *)
Definition fetch_klines (symbol interval : string) (limit : Z)
    : M DataFrame :=
  response <- requests_get symbol interval limit ;;
  raise_for_status response ;;;
  data <- response_json response ;;
  df <- to_frame data ;;
  ret df.

(** [get_ema_values] (lines 61-76).  The entries of the dictionary are
    evaluated in the order written. *)
Definition get_ema_values (symbol interval : string) : M EMAValues :=
  df <- fetch_klines symbol interval (EMA_SLOW + 10) ;;
  ema_fast <- lift (calculate_ema df EMA_FAST) ;;
  ema_slow <- lift (calculate_ema df EMA_SLOW) ;;
  v1 <- lift (iloc ema_fast (-2)) ;;
  v2 <- lift (iloc ema_slow (-2)) ;;
  v3 <- lift (iloc ema_fast (-3)) ;;
  v4 <- lift (iloc ema_slow (-3)) ;;
  v5 <- lift (iloc (map close_time df) (-2)) ;;
  v6 <- lift (iloc (map close df) (-2)) ;;
  ret {| ema_fast := v1; ema_slow := v2;
         ema_fast_prev := v3; ema_slow_prev := v4;
         ev_close_time := v5; close_price := v6 |}.

(** [check_htf_alignment] (lines 100-123): both higher timeframes are
    fetched first, then compared. *)
Definition check_htf_alignment (symbol : string) (d : direction)
    : M HTFData :=
  htf_15m <- get_ema_values symbol "15m" ;;
  htf_30m <- get_ema_values symbol "30m" ;;
  ret (htf_dict d htf_15m htf_30m).

(** [send_telegram_alert] (lines 126-142). *)
Definition send_telegram_alert (message : text) : M bool :=
  try_except
    (response <- requests_post message ;;
     raise_for_status response ;;;
     print [Lit "Telegram alert sent successfully"] ;;;
     ret true)
    (fun e =>
       if is_RequestException e
       then Some (print [Lit "Failed to send Telegram alert: "; Exc e] ;;;
                  ret false)
       else None).

(** The places where [main] stops without an exception: its four
    [return]s (the last one implicit, after the alert) and the first
    [except] clause.  Python returns [None] at each; the model returns
    which one it was. *)
Inductive exit_point : Type :=
| NoCrossover        (* line 187 *)
| Skipped15m         (* line 198 *)
| Skipped30m         (* line 203 *)
| Alerted            (* after line 208 *)
| ApiError.          (* line 211 *)

(** [main] (lines 173-214). *)
Definition main : M exit_point :=
  print [Lit "["; Stamp (now E);
         Lit ("] Checking EMA crossover for " ++ SYMBOL ++ "...")%string] ;;;
  try_except
    (data_5m <- get_ema_values SYMBOL "5m" ;;
     match check_ema_crossover data_5m with
     | None =>
         _ <- send_telegram_alert msg_no_crossover ;;
         ret NoCrossover
     | Some crossover =>
         _ <- send_telegram_alert (msg_detected crossover) ;;
         htf_data <- check_htf_alignment SYMBOL crossover ;;
         if negb (h15m_aligned htf_data) then
           _ <- send_telegram_alert (msg_not_aligned "15m" crossover) ;;
           ret Skipped15m
         else if negb (h30m_aligned htf_data) then
           _ <- send_telegram_alert (msg_not_aligned "30m" crossover) ;;
           ret Skipped30m
         else
           print [Lit ("All conditions met! Sending "
                       ++ direction_str crossover ++ " alert...")%string] ;;;
           _ <- send_telegram_alert
                  (format_alert_message crossover data_5m htf_data) ;;
           ret Alerted
     end)
    (fun e =>
       if is_RequestException e
       then Some (print [Lit "API error: "; Exc e] ;;; ret ApiError)
       else Some (print [Lit "Error: "; Exc e] ;;; raise e)).

End Script.

(** ** Vocabulary of the statements *)

(** What [get_ema_values] computes from the answer to its one request. *)
Definition snapshot (E : env) (symbol interval : string) : result EMAValues :=
  fst (get_ema_values E symbol interval []).

(** The messages posted to the channel during a run, in order. *)
Fixpoint posts (tr : list event) : list text :=
  match tr with
  | [] => []
  | Post m :: rest => m :: posts rest
  | _ :: rest => posts rest
  end.

(** The intervals requested from the klines endpoint, in order. *)
Fixpoint gets (tr : list event) : list string :=
  match tr with
  | [] => []
  | Get _ interval _ :: rest => interval :: gets rest
  | _ :: rest => gets rest
  end.

(** The terminal states of the specification's state machine, read off the
    way [main] ends: an exception, caught at line 210 or re-raised at line
    214, is ERROR. *)
Inductive terminal : Type :=
| ERROR
| NO_SIGNAL
| REJECTED (timeframe : string)
| CONFIRMED.

Definition terminal_state (r : result exit_point) : terminal :=
  match r with
  | Ok NoCrossover => NO_SIGNAL
  | Ok Skipped15m => REJECTED "15m"
  | Ok Skipped30m => REJECTED "30m"
  | Ok Alerted => CONFIRMED
  | Ok ApiError => ERROR
  | Raise _ => ERROR
  end.

(** A whole run: [main] from the empty trace. *)
Definition run (E : env) : result exit_point * list event := main E [].

(** The smoothing factor of the specification, [2 / (span + 1)]. *)
Definition smoothing (span : Z) : Q := 2 / (inject_Z span + 1).

(** What [send_telegram_alert] makes of the answer to its post: delivered
    or not (its return value), and the line it prints. *)
Definition delivered (r : http_response unit) : bool :=
  match r with
  | NoResponse => false
  | Response c _ => negb ((400 <=? c) && (c <? 600))%Z
  end.

Definition send_log (r : http_response unit) : text :=
  match r with
  | NoResponse => [Lit "Failed to send Telegram alert: "; Exc ConnectionError]
  | Response c _ =>
      if ((400 <=? c) && (c <? 600))%Z
      then [Lit "Failed to send Telegram alert: "; Exc HTTPError]
      else [Lit "Telegram alert sent successfully"]
  end.

(** How [main] ends on an exception [e] of its [try] block. *)
Definition handled (e : exn) : result exit_point :=
  if is_RequestException e then Ok ApiError else Raise e.

(** The outline of a run: how it ends, the intervals requested and the
    messages posted, as a function of the three snapshots. *)
Definition outline (E : env) : result exit_point * list string * list text :=
  match snapshot E SYMBOL "5m" with
  | Raise e => (handled e, ["5m"%string], [])
  | Ok data_5m =>
      match check_ema_crossover data_5m with
      | None => (Ok NoCrossover, ["5m"%string], [msg_no_crossover])
      | Some d =>
          match snapshot E SYMBOL "15m" with
          | Raise e => (handled e, ["5m"; "15m"]%string, [msg_detected d])
          | Ok htf_15m =>
              match snapshot E SYMBOL "30m" with
              | Raise e =>
                  (handled e, ["5m"; "15m"; "30m"]%string, [msg_detected d])
              | Ok htf_30m =>
                  let htf_data := htf_dict d htf_15m htf_30m in
                  if negb (h15m_aligned htf_data) then
                    (Ok Skipped15m, ["5m"; "15m"; "30m"]%string,
                     [msg_detected d; msg_not_aligned "15m" d])
                  else if negb (h30m_aligned htf_data) then
                    (Ok Skipped30m, ["5m"; "15m"; "30m"]%string,
                     [msg_detected d; msg_not_aligned "30m" d])
                  else
                    (Ok Alerted, ["5m"; "15m"; "30m"]%string,
                     [msg_detected d;
                      format_alert_message d data_5m htf_data])
              end
          end
      end
  end.

(** The series [calculate_ema] returns for a span of at least one. *)
Definition ema_series (span : Z) (df : DataFrame) : list Q :=
  ewm_mean ((inject_Z span - 1) / 2) (map close df).

(** An answer that passes [raise_for_status]. *)
Definition status_ok (c : Z) : Prop :=
  ((400 <=? c) && (c <? 600))%Z = false.

(** The events of a run, path by path.  [header] is line 175, [request]
    the one request of [get_ema_values], [sending] the post of
    [send_telegram_alert] and the line printed after it, [error_line] the
    line printed by the [except] clause that catches [e]. *)
Definition header (E : env) : event :=
  Print [Lit "["; Stamp (now E);
         Lit ("] Checking EMA crossover for " ++ SYMBOL ++ "...")%string].

Definition request (interval : string) : event :=
  Get SYMBOL interval (EMA_SLOW + 10).

Definition sending (E : env) (n : nat) (m : text) : list event :=
  [Post m; Print (send_log (telegram E n m))].

Definition error_line (e : exn) : event :=
  Print (if is_RequestException e
         then [Lit "API error: "; Exc e]
         else [Lit "Error: "; Exc e]).

Definition transcript (E : env) : list event :=
  match snapshot E SYMBOL "5m" with
  | Raise e => [header E; request "5m"; error_line e]
  | Ok data_5m =>
      match check_ema_crossover data_5m with
      | None =>
          ([header E; request "5m"] ++ sending E 0 msg_no_crossover)%list
      | Some d =>
          let started :=
            ([header E; request "5m"] ++ sending E 0 (msg_detected d))%list in
          match snapshot E SYMBOL "15m" with
          | Raise e => (started ++ [request "15m"; error_line e])%list
          | Ok htf_15m =>
              match snapshot E SYMBOL "30m" with
              | Raise e =>
                  (started ++ [request "15m"; request "30m"; error_line e])%list
              | Ok htf_30m =>
                  let htf_data := htf_dict d htf_15m htf_30m in
                  let fetched :=
                    (started ++ [request "15m"; request "30m"])%list in
                  if negb (h15m_aligned htf_data) then
                    (fetched ++ sending E 1 (msg_not_aligned "15m" d))%list
                  else if negb (h30m_aligned htf_data) then
                    (fetched ++ sending E 1 (msg_not_aligned "30m" d))%list
                  else
                    (fetched
                     ++ [Print [Lit ("All conditions met! Sending "
                                     ++ direction_str d ++ " alert...")%string]]
                     ++ sending E 1
                          (format_alert_message d data_5m htf_data))%list
              end
          end
      end
  end.

(** A line [send_telegram_alert] prints after a post. *)
Definition is_send_log (line : text) : bool :=
  match line with
  | [Lit s] => String.eqb s "Telegram alert sent successfully"
  | [Lit s; Exc e] =>
      String.eqb s "Failed to send Telegram alert: " && is_RequestException e
  | _ => false
  end.

(** Every post in the trace is followed at once by such a line. *)
Fixpoint posts_logged (tr : list event) : bool :=
  match tr with
  | [] => true
  | Post _ :: rest =>
      match rest with
      | Print line :: _ => is_send_log line && posts_logged rest
      | _ => false
      end
  | _ :: rest => posts_logged rest
  end.

(** The fast and the slow average exchanged, now and before. *)
Definition swap_averages (s : EMAValues) : EMAValues :=
  {| ema_fast := ema_slow s; ema_slow := ema_fast s;
     ema_fast_prev := ema_slow_prev s; ema_slow_prev := ema_fast_prev s;
     ev_close_time := ev_close_time s; close_price := close_price s |}.

Definition opposite (d : direction) : direction :=
  match d with LONG => SHORT | SHORT => LONG end.

(** ** Sample data *)

(** Four candles five minutes apart with the given closing prices. *)
Definition candles (c0 c1 c2 c3 : Q) : DataFrame :=
  [ mk_kline 0 c0 299999; mk_kline 300000 c1 599999;
    mk_kline 600000 c2 899999; mk_kline 900000 c3 1199999 ].

(** The last closed candle jumps up, jumps down, or does not move. *)
Definition rising : DataFrame := candles 10 10 20 20.
Definition falling : DataFrame := candles 10 10 5 5.
Definition flat : DataFrame := candles 10 10 10 10.

(** An environment that answers by interval and always delivers posts. *)
Definition sample_env (b5 b15 b30 : http_response klines_body) : env :=
  {| now := 0;
     binance := fun _ interval _ =>
       if String.eqb interval "5m" then b5
       else if String.eqb interval "15m" then b15
       else b30;
     telegram := fun _ _ => Response 200 tt |}.

(** LONG crossover on 5m, 15m below, 30m above. *)
Definition env_15m_against : env :=
  sample_env (Response 200 (Klines rising)) (Response 200 (Klines falling))
             (Response 200 (Klines rising)).

(** LONG crossover on 5m, both higher timeframes above. *)
Definition env_all_aligned : env :=
  sample_env (Response 200 (Klines rising)) (Response 200 (Klines rising))
             (Response 200 (Klines rising)).

(** LONG crossover on 5m, 15m below, and no answer for 30m. *)
Definition env_30m_unreachable : env :=
  sample_env (Response 200 (Klines rising)) (Response 200 (Klines falling))
             NoResponse.

(** The klines endpoint cannot be reached. *)
Definition env_unreachable : env :=
  sample_env NoResponse NoResponse NoResponse.

(** The klines endpoint answers every request with three rows only. *)
Definition env_three_rows : env :=
  sample_env (Response 200 (Klines (firstn 3 rising)))
             (Response 200 (Klines (firstn 3 rising)))
             (Response 200 (Klines (firstn 3 rising))).

(** A snapshot with the four averages given, for the scenarios. *)
Definition snap (fast_prev slow_prev fast_now slow_now : Q) : EMAValues :=
  {| ema_fast := fast_now; ema_slow := slow_now;
     ema_fast_prev := fast_prev; ema_slow_prev := slow_prev;
     ev_close_time := 0; close_price := fast_now |}.

(** * Theorems *)

(** ** The EMA engine *)

Lemma Qeq_bool_true_iff (a b : Q) : Qeq_bool a b = true <-> a == b.
Proof. split; [apply Qeq_bool_eq | apply Qeq_eq_bool]. Qed.

Lemma alpha_of_span (span : Z) :
  (1 <= span)%Z ->
  1 / (1 + (inject_Z span - 1) / 2) == smoothing span.
Proof.
  intros Hs. unfold smoothing.
  assert (H : ~ inject_Z span + 1 == 0).
  { unfold Qeq, Qplus, inject_Z. simpl. lia. }
  field. exact H.
Qed.

Lemma ewm_step_recurrence (alpha weighted cur : Q) :
  ewm_step alpha weighted cur == cur * alpha + weighted * (1 - alpha).
Proof.
  unfold ewm_step.
  destruct (Qeq_bool weighted cur) eqn:Heq.
  - apply Qeq_bool_true_iff in Heq. rewrite <- Heq. ring.
  - field. intro H.
    assert (H1 : 1 - alpha + alpha == 1) by ring.
    rewrite H1 in H. discriminate H.
Qed.

Lemma ewm_loop_length (alpha w : Q) (vals : list Q) :
  List.length (ewm_loop alpha w vals) = List.length vals.
Proof.
  revert w. induction vals as [| c rest IH]; intros w; simpl.
  - reflexivity.
  - now rewrite IH.
Qed.

Lemma ewm_mean_length (com : Q) (vals : list Q) :
  List.length (ewm_mean com vals) = List.length vals.
Proof.
  destruct vals as [| v0 rest]; simpl; [reflexivity | ].
  now rewrite ewm_loop_length.
Qed.

(** Each output after the first is one loop turn applied to the output
    before it and the input at its own position. *)
Lemma ewm_loop_nth (alpha : Q) (rest : list Q) :
  forall (w : Q) (j : nat),
    (j < List.length rest)%nat ->
    nth (S j) (w :: ewm_loop alpha w rest) 0 =
    ewm_step alpha (nth j (w :: ewm_loop alpha w rest) 0)
                   (nth (S j) (w :: rest) 0).
Proof.
  induction rest as [| c rest IH]; intros w j Hj; simpl in Hj.
  - lia.
  - destruct j as [| j].
    + reflexivity.
    + assert (Hj' : (j < List.length rest)%nat) by lia.
      specialize (IH (ewm_step alpha w c) j Hj').
      exact IH.
Qed.

Lemma ewm_loop_constant (alpha V : Q) (rest : list Q) :
  forall w : Q,
    w == V ->
    Forall (fun x => x == V) rest ->
    Forall (fun x => x == V) (ewm_loop alpha w rest).
Proof.
  induction rest as [| c rest IH]; intros w Hw Hall; simpl.
  - constructor.
  - inversion Hall as [| c' rest' Hc Hrest]; subst.
    assert (Hstep : ewm_step alpha w c = w).
    { unfold ewm_step.
      replace (Qeq_bool w c) with true; [reflexivity | ].
      symmetry. apply Qeq_bool_true_iff. now rewrite Hw, Hc. }
    rewrite Hstep. constructor; [exact Hw | ].
    apply IH; assumption.
Qed.

(** C5: for a non-empty closing-price column and a span of at least one,
    [calculate_ema] returns a series as long as its input, whose first
    value is the first price and whose value at every later index [i] is
    [price[i] * alpha + ema[i-1] * (1 - alpha)] with
    [alpha = 2 / (span + 1)]. *)
Theorem calculate_ema_recurrence (df : DataFrame) (span : Z) :
  df <> [] ->
  (1 <= span)%Z ->
  exists out : list Q,
    calculate_ema df span = Ok out /\
    List.length out = List.length df /\
    nth 0 out 0 = nth 0 (map close df) 0 /\
    forall i : nat,
      (1 <= i < List.length df)%nat ->
      nth i out 0 ==
      nth i (map close df) 0 * smoothing span
      + nth (i - 1) out 0 * (1 - smoothing span).
Proof.
  intros Hne Hspan.
  unfold calculate_ema, get_center_of_mass.
  destruct (span <? 1)%Z eqn:Hlt; [apply Z.ltb_lt in Hlt; lia | ].
  eexists. split; [reflexivity | ].
  split; [now rewrite ewm_mean_length, length_map | ].
  destruct df as [| k0 rest]; [contradiction | ].
  simpl map. unfold ewm_mean. cbv zeta.
  split; [reflexivity | ].
  intros i [Hi1 Hi2].
  destruct i as [| j]; [lia | ].
  replace (S j - 1)%nat with j by lia.
  rewrite ewm_loop_nth by (simpl in Hi2; rewrite length_map; lia).
  rewrite ewm_step_recurrence.
  pose proof (alpha_of_span span Hspan) as Ha.
  set (alpha := 1 / (1 + (inject_Z span - 1) / 2)) in *.
  set (prev := nth j (close k0 :: ewm_loop alpha (close k0) (map close rest)) 0).
  set (cur := nth (S j) (close k0 :: map close rest) 0).
  rewrite Ha. reflexivity.
Qed.

(** C6: on a column whose every price is [V], with a span of at least
    one, [calculate_ema] returns [V] at every index. *)
Theorem calculate_ema_constant (df : DataFrame) (V : Q) (span : Z) :
  df <> [] ->
  (1 <= span)%Z ->
  (forall k : kline, In k df -> close k == V) ->
  exists out : list Q,
    calculate_ema df span = Ok out /\
    List.length out = List.length df /\
    forall i : nat, (i < List.length df)%nat -> nth i out 0 == V.
Proof.
  intros Hne Hspan Hconst.
  unfold calculate_ema, get_center_of_mass.
  destruct (span <? 1)%Z eqn:Hlt; [apply Z.ltb_lt in Hlt; lia | ].
  eexists. split; [reflexivity | ].
  split; [now rewrite ewm_mean_length, length_map | ].
  assert (Hall : Forall (fun x => x == V) (map close df)).
  { apply Forall_forall. intros x Hx.
    apply in_map_iff in Hx. destruct Hx as [k [Hk Hin]].
    subst x. now apply Hconst. }
  assert (Hout : Forall (fun x => x == V)
                   (ewm_mean ((inject_Z span - 1) / 2) (map close df))).
  { unfold ewm_mean. destruct (map close df) as [| v0 vs]; [constructor | ].
    inversion Hall as [| v0' vs' Hv0 Hvs]; subst.
    constructor; [exact Hv0 | ].
    apply ewm_loop_constant; assumption. }
  intros i Hi.
  rewrite Forall_forall in Hout. apply Hout.
  apply nth_In. now rewrite ewm_mean_length, length_map.
Qed.

(** ** The crossover detector and the ordering tests *)

Lemma Qleb_spec (a b : Q) : Qleb a b = true <-> a <= b.
Proof. apply Qle_bool_iff. Qed.

Lemma Qgeb_spec (a b : Q) : Qgeb a b = true <-> b <= a.
Proof. apply Qle_bool_iff. Qed.

Lemma Qgtb_spec (a b : Q) : Qgtb a b = true <-> b < a.
Proof.
  unfold Qgtb. rewrite negb_true_iff.
  split.
  - intros H. apply Qnot_le_lt. intro Hle.
    apply Qle_bool_iff in Hle. congruence.
  - intros H. destruct (Qle_bool a b) eqn:Hb; [ | reflexivity].
    apply Qle_bool_iff in Hb. exfalso. exact (Qlt_not_le _ _ H Hb).
Qed.

Lemma Qltb_spec (a b : Q) : Qltb a b = true <-> a < b.
Proof. exact (Qgtb_spec b a). Qed.

Lemma Qgtb_false_of_eq (a b : Q) : a == b -> Qgtb a b = false.
Proof.
  intros H. destruct (Qgtb a b) eqn:Hb; [ | reflexivity].
  apply Qgtb_spec in Hb. rewrite H in Hb.
  exfalso. exact (Qlt_irrefl _ Hb).
Qed.

Lemma Qltb_false_of_eq (a b : Q) : a == b -> Qltb a b = false.
Proof.
  intros H. apply (Qgtb_false_of_eq b a). now symmetry.
Qed.

(** C3: the detector answers LONG exactly when the fast average was at or
    below the slow one and is now strictly above it, SHORT exactly when it
    was at or above and is now strictly below, and nothing in every other
    case; equal current values never give a direction. *)
Theorem check_ema_crossover_rule (s : EMAValues) :
  (check_ema_crossover s = Some LONG <->
     ema_fast_prev s <= ema_slow_prev s /\ ema_slow s < ema_fast s) /\
  (check_ema_crossover s = Some SHORT <->
     ema_slow_prev s <= ema_fast_prev s /\ ema_fast s < ema_slow s) /\
  (check_ema_crossover s = None <->
     ~ (ema_fast_prev s <= ema_slow_prev s /\ ema_slow s < ema_fast s) /\
     ~ (ema_slow_prev s <= ema_fast_prev s /\ ema_fast s < ema_slow s)) /\
  (ema_fast s == ema_slow s -> check_ema_crossover s = None).
Proof.
  unfold check_ema_crossover.
  pose proof (Qleb_spec (ema_fast_prev s) (ema_slow_prev s)) as Hle.
  pose proof (Qgeb_spec (ema_fast_prev s) (ema_slow_prev s)) as Hge.
  pose proof (Qgtb_spec (ema_fast s) (ema_slow s)) as Hgt.
  pose proof (Qltb_spec (ema_fast s) (ema_slow s)) as Hlt.
  assert (Hexcl : ema_slow s < ema_fast s -> ema_fast s < ema_slow s -> False).
  { intros H1 H2. exact (Qlt_irrefl _ (Qlt_trans _ _ _ H1 H2)). }
  assert (Htie : ema_fast s == ema_slow s ->
                 Qgtb (ema_fast s) (ema_slow s) = false /\
                 Qltb (ema_fast s) (ema_slow s) = false).
  { intros H. split; [now apply Qgtb_false_of_eq | now apply Qltb_false_of_eq]. }
  destruct (Qleb (ema_fast_prev s) (ema_slow_prev s));
    destruct (Qgeb (ema_fast_prev s) (ema_slow_prev s));
    destruct (Qgtb (ema_fast s) (ema_slow s));
    destruct (Qltb (ema_fast s) (ema_slow s));
    simpl;
    repeat split;
    try (intros; discriminate);
    try (intros; reflexivity);
    try tauto;
    try (intros H; destruct (Htie H); discriminate);
    try (intros [H1 H2]; first [ apply Hgt in H2 | apply Hlt in H2
                               | apply Hle in H1 | apply Hge in H1 ];
         discriminate);
    try (intros _; split; tauto);
    try (intros _; split; intros [H1 H2];
         first [ apply Hgt in H2; discriminate | apply Hlt in H2; discriminate
               | apply Hle in H1; discriminate | apply Hge in H1; discriminate ]).
Qed.

(** ** How the effectful functions run *)

Lemma posts_app (a b : list event) : posts (a ++ b) = (posts a ++ posts b)%list.
Proof.
  induction a as [| ev a IH]; simpl; [reflexivity | ].
  destruct ev; simpl; now rewrite IH.
Qed.

Lemma gets_app (a b : list event) : gets (a ++ b) = (gets a ++ gets b)%list.
Proof.
  induction a as [| ev a IH]; simpl; [reflexivity | ].
  destruct ev; simpl; now rewrite IH.
Qed.

Lemma count_posts (tr : list event) :
  List.length (filter is_post tr) = List.length (posts tr).
Proof.
  induction tr as [| ev tr IH]; simpl; [reflexivity | ].
  destruct ev; simpl; now rewrite ?IH.
Qed.

(** [fetch_klines] makes exactly one request, whatever comes back, and
    what it returns depends on the answer alone. *)
Lemma fetch_klines_run (E : env) (symbol interval : string) (limit : Z)
    (tr : list event) :
  fetch_klines E symbol interval limit tr =
  (fst (fetch_klines E symbol interval limit []),
   (tr ++ [Get symbol interval limit])%list).
Proof.
  unfold fetch_klines, requests_get, bind, emit. simpl.
  destruct (binance E symbol interval limit) as [| c b]; simpl;
    [reflexivity | ].
  unfold raise_for_status, raise, ret. simpl.
  destruct ((400 <=? c) && (c <? 600))%Z; simpl; [reflexivity | ].
  unfold response_json, to_frame, raise, ret. simpl.
  destruct b; reflexivity.
Qed.

Lemma get_ema_values_run (E : env) (symbol interval : string)
    (tr : list event) :
  get_ema_values E symbol interval tr =
  (snapshot E symbol interval,
   (tr ++ [Get symbol interval (EMA_SLOW + 10)])%list).
Proof.
  pose proof (fetch_klines_run E symbol interval (EMA_SLOW + 10) tr) as Htr.
  pose proof (fetch_klines_run E symbol interval (EMA_SLOW + 10) []) as Hnil.
  remember (fst (fetch_klines E symbol interval (EMA_SLOW + 10) [])) as R.
  unfold snapshot, get_ema_values, bind.
  rewrite Htr, Hnil.
  destruct R as [df | e]; [ | reflexivity].
  unfold lift, ret.
  repeat match goal with
         | |- context [match ?r with Ok _ => _ | Raise _ => _ end] =>
             destruct r; simpl
         end; reflexivity.
Qed.

(** [send_telegram_alert] never raises: it posts once, prints one line
    and returns whether the post was delivered. *)
Lemma send_telegram_alert_run (E : env) (message : text) (tr : list event) :
  let r := telegram E (List.length (posts tr)) message in
  send_telegram_alert E message tr =
  (Ok (delivered r), (tr ++ [Post message; Print (send_log r)])%list).
Proof.
  intros r. subst r.
  unfold send_telegram_alert, try_except, bind, requests_post, emit.
  rewrite count_posts.
  destruct (telegram E (List.length (posts tr)) message) as [| c u]; simpl.
  - unfold bind, print, emit, ret. simpl.
    now rewrite <- app_assoc.
  - unfold raise_for_status, raise, ret, print, bind, emit. simpl.
    destruct ((400 <=? c) && (c <? 600))%Z; simpl;
      now rewrite <- app_assoc.
Qed.

Lemma check_htf_alignment_run (E : env) (symbol : string) (d : direction)
    (tr : list event) :
  check_htf_alignment E symbol d tr =
  match snapshot E symbol "15m" with
  | Raise e => (Raise e, (tr ++ [Get symbol "15m" (EMA_SLOW + 10)])%list)
  | Ok htf_15m =>
      match snapshot E symbol "30m" with
      | Raise e =>
          (Raise e,
           (tr ++ [Get symbol "15m" (EMA_SLOW + 10);
                   Get symbol "30m" (EMA_SLOW + 10)])%list)
      | Ok htf_30m =>
          (Ok (htf_dict d htf_15m htf_30m),
           (tr ++ [Get symbol "15m" (EMA_SLOW + 10);
                   Get symbol "30m" (EMA_SLOW + 10)])%list)
      end
  end.
Proof.
  unfold check_htf_alignment, bind.
  rewrite get_ema_values_run.
  destruct (snapshot E symbol "15m") as [htf_15m | e]; [ | reflexivity].
  rewrite get_ema_values_run.
  destruct (snapshot E symbol "30m") as [htf_30m | e];
    unfold ret; now rewrite <- app_assoc.
Qed.

Ltac trace_simpl :=
  repeat rewrite posts_app; repeat rewrite gets_app; cbn [posts gets app].

Ltac finish_run :=
  unfold bind, print, emit, ret, raise;
  repeat rewrite send_telegram_alert_run;
  eexists; split; [reflexivity | split; trace_simpl; reflexivity].

(** The run of [main], summarised. *)
Lemma run_outline_trace (E : env) :
  exists tr : list event,
    run E = (fst (fst (outline E)), tr) /\
    gets tr = snd (fst (outline E)) /\
    posts tr = snd (outline E).
Proof.
  unfold run, main, outline, handled.
  unfold bind at 1. unfold print at 1, emit at 1. cbn [app].
  unfold try_except.
  unfold bind at 1. rewrite get_ema_values_run.
  destruct (snapshot E SYMBOL "5m") as [data_5m | e].
  2:{ destruct (is_RequestException e); finish_run. }
  destruct (check_ema_crossover data_5m) as [d | ].
  2:{ finish_run. }
  unfold bind at 1. rewrite send_telegram_alert_run.
  unfold bind at 1. rewrite check_htf_alignment_run.
  destruct (snapshot E SYMBOL "15m") as [htf_15m | e].
  2:{ destruct (is_RequestException e); finish_run. }
  destruct (snapshot E SYMBOL "30m") as [htf_30m | e].
  2:{ destruct (is_RequestException e); finish_run. }
  cbv zeta.
  destruct (negb (h15m_aligned (htf_dict d htf_15m htf_30m))).
  { finish_run. }
  destruct (negb (h30m_aligned (htf_dict d htf_15m htf_30m))).
  { finish_run. }
  finish_run.
Qed.

Lemma run_outline (E : env) :
  (fst (run E), gets (snd (run E)), posts (snd (run E))) = outline E.
Proof.
  destruct (run_outline_trace E) as [tr [Hrun [Hgets Hposts]]].
  rewrite Hrun. cbn [fst snd]. rewrite Hgets, Hposts.
  now destruct (outline E) as [[r g] p].
Qed.

Lemma run_parts (E : env) (r : result exit_point) (g : list string)
    (p : list text) :
  outline E = (r, g, p) ->
  fst (run E) = r /\ gets (snd (run E)) = g /\ posts (snd (run E)) = p.
Proof.
  intros H. pose proof (run_outline E) as Ho. rewrite H in Ho.
  injection Ho as H1 H2 H3. auto.
Qed.

(** ** The pipeline *)

(** A run with a LONG crossover on 5m and the 15m averages the wrong way
    round still requests the 30m candles. *)
Lemma htf2_fetched_although_htf1_fails :
  exists data_5m htf_15m : EMAValues,
    snapshot env_15m_against SYMBOL "5m" = Ok data_5m /\
    check_ema_crossover data_5m = Some LONG /\
    snapshot env_15m_against SYMBOL "15m" = Ok htf_15m /\
    Qgtb (ema_fast htf_15m) (ema_slow htf_15m) = false /\
    In "30m"%string (gets (snd (run env_15m_against))).
Proof.
  do 2 eexists.
  split; [vm_compute; reflexivity | ].
  split; [vm_compute; reflexivity | ].
  split; [vm_compute; reflexivity | ].
  split; [vm_compute; reflexivity | ].
  vm_compute. right. right. left. reflexivity.
Qed.

(** C1, as the code has it: once the 5m crossover fired and the 15m
    values are in, the 30m candles are requested as well, before either
    ordering is looked at; when the 30m values arrive too and the 15m
    ordering is against the signal, the run stops at the 15m check after
    exactly one rejection report, which names 15m, whatever the 30m
    ordering is. *)
Theorem htf1_rejection_names_15m (E : env) (data_5m htf_15m : EMAValues)
    (d : direction) :
  snapshot E SYMBOL "5m" = Ok data_5m ->
  check_ema_crossover data_5m = Some d ->
  snapshot E SYMBOL "15m" = Ok htf_15m ->
  gets (snd (run E)) = ["5m"; "15m"; "30m"]%string /\
  forall htf_30m : EMAValues,
    snapshot E SYMBOL "30m" = Ok htf_30m ->
    h15m_aligned (htf_dict d htf_15m htf_30m) = false ->
    fst (run E) = Ok Skipped15m /\
    posts (snd (run E)) = [msg_detected d; msg_not_aligned "15m" d].
Proof.
  intros H5 Hc H15.
  split.
  - destruct (outline E) as [[r g] p] eqn:Ho.
    destruct (run_parts E r g p Ho) as [_ [Hg _]]. rewrite Hg.
    unfold outline in Ho. rewrite H5, Hc, H15 in Ho.
    destruct (snapshot E SYMBOL "30m") as [htf_30m | e].
    + cbv zeta in Ho.
      destruct (negb (h15m_aligned (htf_dict d htf_15m htf_30m)));
        [ | destruct (negb (h30m_aligned (htf_dict d htf_15m htf_30m)))];
        injection Ho as _ Hg' _; now subst g.
    + injection Ho as _ Hg' _. now subst g.
  - intros htf_30m H30 Hal.
    assert (Ho : outline E =
                 (Ok Skipped15m, ["5m"; "15m"; "30m"]%string,
                  [msg_detected d; msg_not_aligned "15m" d])).
    { unfold outline. rewrite H5, Hc, H15, H30. cbv zeta.
      rewrite Hal. reflexivity. }
    destruct (run_parts E _ _ _ Ho) as [Hr [_ Hp]]. auto.
Qed.

Lemma htf1_rejection_names_15m_witness :
  gets (snd (run env_15m_against)) = ["5m"; "15m"; "30m"]%string /\
  fst (run env_15m_against) = Ok Skipped15m /\
  posts (snd (run env_15m_against)) =
    [msg_detected LONG; msg_not_aligned "15m" LONG].
Proof.
  edestruct (htf1_rejection_names_15m env_15m_against) as [Hg Hrej];
    [ vm_compute; reflexivity | vm_compute; reflexivity
    | vm_compute; reflexivity | ].
  split; [exact Hg | ].
  eapply Hrej; vm_compute; reflexivity.
Defined.

(** A run with a LONG crossover on 5m and the 15m averages the wrong way
    round, in which the 30m request gets no answer, ends in ERROR, not in
    REJECTED. *)
Lemma misaligned_run_ends_in_error :
  exists data_5m htf_15m : EMAValues,
    snapshot env_30m_unreachable SYMBOL "5m" = Ok data_5m /\
    check_ema_crossover data_5m = Some LONG /\
    snapshot env_30m_unreachable SYMBOL "15m" = Ok htf_15m /\
    Qgtb (ema_fast htf_15m) (ema_slow htf_15m) = false /\
    terminal_state (fst (run env_30m_unreachable)) = ERROR /\
    forall tf : string,
      terminal_state (fst (run env_30m_unreachable)) <> REJECTED tf.
Proof.
  do 2 eexists.
  split; [vm_compute; reflexivity | ].
  split; [vm_compute; reflexivity | ].
  split; [vm_compute; reflexivity | ].
  split; [vm_compute; reflexivity | ].
  split; [vm_compute; reflexivity | ].
  intros tf H. vm_compute in H. discriminate H.
Qed.

(** C2, as the code has it: a run is CONFIRMED exactly when the 5m
    crossover fired, the values of both higher timeframes were obtained
    and both are ordered with it, and then the full alert is built and
    posted last.  When the crossover fired, both were obtained and one of
    the two orderings is against it, the run is REJECTED.  When the
    crossover fired and the values of a higher timeframe were not
    obtained, the run is ERROR, whatever the ordering on the other one:
    both are fetched before either ordering is looked at. *)
Theorem confirmed_iff_all_aligned (E : env) :
  (terminal_state (fst (run E)) = CONFIRMED <->
   exists (data_5m htf_15m htf_30m : EMAValues) (d : direction),
     snapshot E SYMBOL "5m" = Ok data_5m /\
     check_ema_crossover data_5m = Some d /\
     snapshot E SYMBOL "15m" = Ok htf_15m /\
     snapshot E SYMBOL "30m" = Ok htf_30m /\
     h15m_aligned (htf_dict d htf_15m htf_30m) = true /\
     h30m_aligned (htf_dict d htf_15m htf_30m) = true) /\
  (forall (data_5m htf_15m htf_30m : EMAValues) (d : direction),
     snapshot E SYMBOL "5m" = Ok data_5m ->
     check_ema_crossover data_5m = Some d ->
     snapshot E SYMBOL "15m" = Ok htf_15m ->
     snapshot E SYMBOL "30m" = Ok htf_30m ->
     (h15m_aligned (htf_dict d htf_15m htf_30m) = true ->
      h30m_aligned (htf_dict d htf_15m htf_30m) = true ->
      posts (snd (run E)) =
        [msg_detected d;
         format_alert_message d data_5m (htf_dict d htf_15m htf_30m)]) /\
     (h15m_aligned (htf_dict d htf_15m htf_30m) = false \/
      h30m_aligned (htf_dict d htf_15m htf_30m) = false ->
      exists tf : string, terminal_state (fst (run E)) = REJECTED tf)) /\
  (forall (data_5m : EMAValues) (d : direction) (e : exn),
     snapshot E SYMBOL "5m" = Ok data_5m ->
     check_ema_crossover data_5m = Some d ->
     snapshot E SYMBOL "15m" = Raise e \/
     (exists htf_15m : EMAValues,
        snapshot E SYMBOL "15m" = Ok htf_15m /\
        snapshot E SYMBOL "30m" = Raise e) ->
     terminal_state (fst (run E)) = ERROR /\
     posts (snd (run E)) = [msg_detected d]).
Proof.
  destruct (outline E) as [[r g] p] eqn:Ho.
  destruct (run_parts E r g p Ho) as [Hr [_ Hp]].
  rewrite Hr, Hp. clear Hr Hp.
  unfold outline, handled in Ho.
  split; [split | split].
  - intros Hconf.
    destruct (snapshot E SYMBOL "5m") as [data_5m | e] eqn:E5.
    2:{ injection Ho as <- _ _.
        destruct (is_RequestException e); discriminate Hconf. }
    destruct (check_ema_crossover data_5m) as [d | ] eqn:Ec.
    2:{ injection Ho as <- _ _. discriminate Hconf. }
    destruct (snapshot E SYMBOL "15m") as [htf_15m | e] eqn:E15.
    2:{ injection Ho as <- _ _.
        destruct (is_RequestException e); discriminate Hconf. }
    destruct (snapshot E SYMBOL "30m") as [htf_30m | e] eqn:E30.
    2:{ injection Ho as <- _ _.
        destruct (is_RequestException e); discriminate Hconf. }
    cbv zeta in Ho.
    destruct (h15m_aligned (htf_dict d htf_15m htf_30m)) eqn:H15;
      cbn [negb] in Ho.
    2:{ injection Ho as <- _ _. discriminate Hconf. }
    destruct (h30m_aligned (htf_dict d htf_15m htf_30m)) eqn:H30;
      cbn [negb] in Ho.
    2:{ injection Ho as <- _ _. discriminate Hconf. }
    exists data_5m, htf_15m, htf_30m, d.
    rewrite H15, H30. repeat split; first [reflexivity | assumption].
  - intros (data_5m & htf_15m & htf_30m & d & H5 & Hc & H15 & H30
            & Ha15 & Ha30).
    rewrite H5, Hc, H15, H30 in Ho. cbv zeta in Ho.
    rewrite Ha15, Ha30 in Ho. cbn [negb] in Ho.
    injection Ho as <- _ _. reflexivity.
  - intros data_5m htf_15m htf_30m d H5 Hc H15 H30.
    rewrite H5, Hc, H15, H30 in Ho. cbv zeta in Ho.
    split.
    + intros Ha15 Ha30. rewrite Ha15, Ha30 in Ho. cbn [negb] in Ho.
      injection Ho as _ _ <-. reflexivity.
    + intros Hal.
      destruct (h15m_aligned (htf_dict d htf_15m htf_30m)); cbn [negb] in Ho.
      * destruct Hal as [Hal | Hal]; [discriminate Hal | ].
        rewrite Hal in Ho. cbn [negb] in Ho.
        injection Ho as <- _ _. now exists "30m"%string.
      * injection Ho as <- _ _. now exists "15m"%string.
  - intros data_5m d e H5 Hc Hfail.
    rewrite H5, Hc in Ho.
    destruct Hfail as [H15 | (htf_15m & H15 & H30)].
    + rewrite H15 in Ho. injection Ho as <- _ <-.
      destruct (is_RequestException e); split; reflexivity.
    + rewrite H15, H30 in Ho. injection Ho as <- _ <-.
      destruct (is_RequestException e); split; reflexivity.
Qed.

Lemma htf_dict_flags (d : direction) (htf_15m htf_30m : EMAValues) :
  h15m_aligned (htf_dict d htf_15m htf_30m) =
    match d with
    | LONG => Qgtb (ema_fast htf_15m) (ema_slow htf_15m)
    | SHORT => Qltb (ema_fast htf_15m) (ema_slow htf_15m)
    end /\
  h30m_aligned (htf_dict d htf_15m htf_30m) =
    match d with
    | LONG => Qgtb (ema_fast htf_30m) (ema_slow htf_30m)
    | SHORT => Qltb (ema_fast htf_30m) (ema_slow htf_30m)
    end.
Proof. destruct d; split; reflexivity. Qed.

(** C4: when both higher-timeframe values are obtained,
    [check_htf_alignment] reports a timeframe aligned exactly when its
    fast average is strictly above the slow one for LONG, strictly below
    for SHORT; equal averages are never aligned, and the flags are a
    function of the two current averages only. *)
Theorem check_htf_alignment_rule (E : env) (symbol : string) (d : direction)
    (tr : list event) (htf_15m htf_30m : EMAValues) :
  snapshot E symbol "15m" = Ok htf_15m ->
  snapshot E symbol "30m" = Ok htf_30m ->
  exists (htf_data : HTFData) (tr' : list event),
    check_htf_alignment E symbol d tr = (Ok htf_data, tr') /\
    (h15m_aligned htf_data = true <->
     match d with
     | LONG => ema_slow htf_15m < ema_fast htf_15m
     | SHORT => ema_fast htf_15m < ema_slow htf_15m
     end) /\
    (h30m_aligned htf_data = true <->
     match d with
     | LONG => ema_slow htf_30m < ema_fast htf_30m
     | SHORT => ema_fast htf_30m < ema_slow htf_30m
     end) /\
    (ema_fast htf_15m == ema_slow htf_15m -> h15m_aligned htf_data = false) /\
    (ema_fast htf_30m == ema_slow htf_30m -> h30m_aligned htf_data = false) /\
    (forall other_15m other_30m : EMAValues,
       ema_fast other_15m = ema_fast htf_15m ->
       ema_slow other_15m = ema_slow htf_15m ->
       ema_fast other_30m = ema_fast htf_30m ->
       ema_slow other_30m = ema_slow htf_30m ->
       h15m_aligned (htf_dict d other_15m other_30m) = h15m_aligned htf_data /\
       h30m_aligned (htf_dict d other_15m other_30m) = h30m_aligned htf_data).
Proof.
  intros H15 H30.
  rewrite check_htf_alignment_run, H15, H30.
  do 2 eexists. split; [reflexivity | ].
  destruct (htf_dict_flags d htf_15m htf_30m) as [F15 F30].
  rewrite F15, F30.
  split; [destruct d; [apply Qgtb_spec | apply Qltb_spec] | ].
  split; [destruct d; [apply Qgtb_spec | apply Qltb_spec] | ].
  split; [intros Heq; destruct d;
          [now apply Qgtb_false_of_eq | now apply Qltb_false_of_eq] | ].
  split; [intros Heq; destruct d;
          [now apply Qgtb_false_of_eq | now apply Qltb_false_of_eq] | ].
  intros o15 o30 Hf15 Hs15 Hf30 Hs30.
  destruct (htf_dict_flags d o15 o30) as [G15 G30].
  rewrite G15, G30, Hf15, Hs15, Hf30, Hs30. split; reflexivity.
Qed.

(** C10: a snapshot on which the detector answers a direction passes the
    ordering test of [check_htf_alignment] for that direction, in either
    timeframe slot: LONG means the fast average is strictly above the slow
    one, SHORT strictly below. *)
Theorem crossover_implies_alignment (s : EMAValues) (d : direction) :
  check_ema_crossover s = Some d ->
  match d with
  | LONG => ema_slow s < ema_fast s
  | SHORT => ema_fast s < ema_slow s
  end /\
  forall other : EMAValues,
    h15m_aligned (htf_dict d s other) = true /\
    h30m_aligned (htf_dict d other s) = true.
Proof.
  intros Hc.
  destruct (htf_dict_flags d s s) as [F15 _].
  assert (Hflag : h15m_aligned (htf_dict d s s) = true).
  { rewrite F15. unfold check_ema_crossover in Hc.
    destruct (Qleb (ema_fast_prev s) (ema_slow_prev s) &&
              Qgtb (ema_fast s) (ema_slow s)) eqn:Hlong.
    - injection Hc as <-. now apply andb_true_iff in Hlong.
    - destruct (Qgeb (ema_fast_prev s) (ema_slow_prev s) &&
                Qltb (ema_fast s) (ema_slow s)) eqn:Hshort;
        [ | discriminate Hc].
      injection Hc as <-. now apply andb_true_iff in Hshort. }
  rewrite F15 in Hflag.
  split.
  - destruct d; [now apply Qgtb_spec | now apply Qltb_spec].
  - intros other.
    destruct (htf_dict_flags d s other) as [G15 _].
    destruct (htf_dict_flags d other s) as [_ G30].
    rewrite G15, G30. split; exact Hflag.
Qed.

(** A run that cannot reach the klines endpoint ends in ERROR without
    posting anything. *)
Lemma error_run_posts_nothing :
  terminal_state (fst (run env_unreachable)) = ERROR /\
  posts (snd (run env_unreachable)) = [].
Proof. split; vm_compute; reflexivity. Qed.

(** C7, as the code has it: a run that ends in NO_SIGNAL, REJECTED or
    CONFIRMED posts exactly one message describing that outcome, as its
    last post; before it, REJECTED and CONFIRMED runs have posted the
    "crossover detected" progress message, and nothing else.  A run that
    ends in ERROR posts no message about the error: it has posted nothing,
    or the progress message only. *)
Theorem outcome_report_is_last_post (E : env) :
  match terminal_state (fst (run E)) with
  | NO_SIGNAL => posts (snd (run E)) = [msg_no_crossover]
  | REJECTED tf =>
      exists d : direction,
        posts (snd (run E)) = [msg_detected d; msg_not_aligned tf d]
  | CONFIRMED =>
      exists (d : direction) (data_5m : EMAValues) (htf_data : HTFData),
        posts (snd (run E)) =
          [msg_detected d; format_alert_message d data_5m htf_data]
  | ERROR =>
      posts (snd (run E)) = [] \/
      exists d : direction, posts (snd (run E)) = [msg_detected d]
  end.
Proof.
  destruct (outline E) as [[r g] p] eqn:Ho.
  destruct (run_parts E r g p Ho) as [Hr [_ Hp]].
  rewrite Hr, Hp. clear Hr Hp.
  unfold outline, handled in Ho.
  destruct (snapshot E SYMBOL "5m") as [data_5m | e].
  2:{ injection Ho as <- _ <-.
      destruct (is_RequestException e); cbn; now left. }
  destruct (check_ema_crossover data_5m) as [d | ].
  2:{ injection Ho as <- _ <-. reflexivity. }
  destruct (snapshot E SYMBOL "15m") as [htf_15m | e].
  2:{ injection Ho as <- _ <-.
      destruct (is_RequestException e); cbn; right; now exists d. }
  destruct (snapshot E SYMBOL "30m") as [htf_30m | e].
  2:{ injection Ho as <- _ <-.
      destruct (is_RequestException e); cbn; right; now exists d. }
  cbv zeta in Ho.
  destruct (negb (h15m_aligned (htf_dict d htf_15m htf_30m))).
  { injection Ho as <- _ <-. now exists d. }
  destruct (negb (h30m_aligned (htf_dict d htf_15m htf_30m))).
  { injection Ho as <- _ <-. now exists d. }
  injection Ho as <- _ <-. cbn [terminal_state].
  now exists d, data_5m, (htf_dict d htf_15m htf_30m).
Qed.

(** ** The candle source *)



(** ** The notifier *)

Lemma snapshot_ext (E E' : env) (symbol interval : string) :
  (forall s i l, binance E' s i l = binance E s i l) ->
  snapshot E' symbol interval = snapshot E symbol interval.
Proof.
  intros Hb.
  unfold snapshot, get_ema_values, fetch_klines, requests_get, bind, emit.
  rewrite Hb. reflexivity.
Qed.

Lemma outline_ext (E E' : env) :
  (forall s i l, binance E' s i l = binance E s i l) ->
  outline E' = outline E.
Proof.
  intros Hb. unfold outline.
  now rewrite !(snapshot_ext E E' _ _ Hb).
Qed.

Lemma msg_detected_not_rejection (d : direction) (tf : string) :
  tf = "15m"%string \/ tf = "30m"%string ->
  msg_detected d <> msg_not_aligned tf d.
Proof.
  intros [-> | ->]; destruct d; intro H; vm_compute in H; discriminate H.
Qed.

Lemma msg_detected_not_alert (d : direction) (data_5m : EMAValues)
    (htf_data : HTFData) :
  msg_detected d <> format_alert_message d data_5m htf_data.
Proof.
  unfold msg_detected, format_alert_message. intro H. discriminate H.
Qed.

Lemma NoDup_pair {A : Type} (a b : A) : a <> b -> NoDup [a; b].
Proof.
  intros Hab. constructor.
  - intros [H | []]. now apply Hab.
  - constructor; [intros [] | constructor].
Qed.

Lemma outline_posts_NoDup (E : env) : NoDup (snd (outline E)).
Proof.
  unfold outline.
  destruct (snapshot E SYMBOL "5m") as [data_5m | e]; [ | constructor].
  destruct (check_ema_crossover data_5m) as [d | ].
  2:{ constructor; [intros [] | constructor]. }
  destruct (snapshot E SYMBOL "15m") as [htf_15m | e].
  2:{ constructor; [intros [] | constructor]. }
  destruct (snapshot E SYMBOL "30m") as [htf_30m | e].
  2:{ constructor; [intros [] | constructor]. }
  cbv zeta.
  destruct (negb (h15m_aligned (htf_dict d htf_15m htf_30m))).
  { apply NoDup_pair, msg_detected_not_rejection. now left. }
  destruct (negb (h30m_aligned (htf_dict d htf_15m htf_30m))).
  { apply NoDup_pair, msg_detected_not_rejection. now right. }
  apply NoDup_pair, msg_detected_not_alert.
Qed.

(** C9: [send_telegram_alert] never raises: it posts the message once and
    prints one line right after; when delivery fails the line is the
    failure log and the value returned is [False].  Whether posts are
    delivered changes nothing in how the run ends, what it requests and
    what it posts, and no message is posted twice in a run. *)
Theorem notification_failure_is_contained (E : env) :
  (forall (message : text) (tr : list event),
     exists (b : bool) (line : text),
       send_telegram_alert E message tr =
         (Ok b, (tr ++ [Post message; Print line])%list) /\
       b = delivered (telegram E (List.length (posts tr)) message) /\
       (b = false ->
        exists e : exn,
          is_RequestException e = true /\
          line = [Lit "Failed to send Telegram alert: "; Exc e])) /\
  (forall E' : env,
     (forall s i l, binance E' s i l = binance E s i l) ->
     fst (run E') = fst (run E) /\
     gets (snd (run E')) = gets (snd (run E)) /\
     posts (snd (run E')) = posts (snd (run E))) /\
  NoDup (posts (snd (run E))).
Proof.
  split; [ | split].
  - intros message tr.
    do 2 eexists.
    split; [apply send_telegram_alert_run | ].
    split; [reflexivity | ].
    destruct (telegram E (List.length (posts tr)) message) as [| c u];
      cbn [delivered send_log].
    + intros _. now exists ConnectionError.
    + destruct ((400 <=? c) && (c <? 600))%Z; cbn [negb].
      * intros _. now exists HTTPError.
      * intros H. discriminate H.
  - intros E' Hb.
    pose proof (run_outline E) as H1.
    pose proof (run_outline E') as H2.
    rewrite (outline_ext E E' Hb), <- H1 in H2.
    injection H2 as Ha Hb' Hc. auto.
  - pose proof (run_outline E) as H1.
    pose proof (outline_posts_NoDup E) as Hn.
    rewrite <- H1 in Hn. exact Hn.
Qed.

(** ** Instances on the sample data *)

Lemma calculate_ema_recurrence_witness :
  exists out : list Q,
    calculate_ema rising EMA_FAST = Ok out /\
    List.length out = List.length rising /\
    nth 0 out 0 = nth 0 (map close rising) 0 /\
    forall i : nat,
      (1 <= i < List.length rising)%nat ->
      nth i out 0 ==
      nth i (map close rising) 0 * smoothing EMA_FAST
      + nth (i - 1) out 0 * (1 - smoothing EMA_FAST).
Proof.
  apply (calculate_ema_recurrence rising EMA_FAST).
  - discriminate.
  - unfold EMA_FAST. lia.
Defined.

Lemma calculate_ema_constant_witness :
  exists out : list Q,
    calculate_ema flat EMA_SLOW = Ok out /\
    List.length out = List.length flat /\
    forall i : nat, (i < List.length flat)%nat -> nth i out 0 == 10.
Proof.
  apply (calculate_ema_constant flat 10 EMA_SLOW).
  - discriminate.
  - unfold EMA_SLOW. lia.
  - intros k Hk. simpl in Hk.
    destruct Hk as [<- | [<- | [<- | [<- | []]]]]; reflexivity.
Defined.

Lemma check_htf_alignment_rule_witness :
  exists (htf_data : HTFData) (tr' : list event),
    check_htf_alignment env_15m_against SYMBOL LONG [] = (Ok htf_data, tr') /\
    h15m_aligned htf_data = false /\
    h30m_aligned htf_data = true.
Proof.
  edestruct (check_htf_alignment_rule env_15m_against SYMBOL LONG [])
    as (htf_data & tr' & Hrun & H15 & H30 & _);
    [vm_compute; reflexivity | vm_compute; reflexivity | ].
  exists htf_data, tr'.
  split; [exact Hrun | ].
  split.
  - destruct (h15m_aligned htf_data); [ | reflexivity].
    assert (Hlt : 136188600 # 13845841 < 8937300 # 923521)
      by (apply H15; reflexivity).
    vm_compute in Hlt. discriminate Hlt.
  - apply H30. vm_compute. reflexivity.
Defined.

Lemma crossover_implies_alignment_witness :
  let s := {| ema_fast := 13; ema_slow := 12;
              ema_fast_prev := 10; ema_slow_prev := 12;
              ev_close_time := 899999; close_price := 13 |} in
  check_ema_crossover s = Some LONG /\
  ema_slow s < ema_fast s /\
  forall other : EMAValues,
    h15m_aligned (htf_dict LONG s other) = true /\
    h30m_aligned (htf_dict LONG other s) = true.
Proof.
  intros s.
  split; [vm_compute; reflexivity | ].
  apply (crossover_implies_alignment s LONG).
  vm_compute. reflexivity.
Defined.

(** ** The scenarios of the specification, evaluated *)

Example detector_long : check_ema_crossover (snap 10 12 13 12) = Some LONG.
Proof. reflexivity. Qed.

Example detector_short : check_ema_crossover (snap 12 10 9 10) = Some SHORT.
Proof. reflexivity. Qed.

Example detector_tie : check_ema_crossover (snap 10 10 10 10) = None.
Proof. reflexivity. Qed.

Example scenario_rejected_at_30m :
  let base := snap 59000 59010 59050 59040 in
  let htf := htf_dict LONG (snap 0 0 59100 59000) (snap 0 0 58900 59000) in
  check_ema_crossover base = Some LONG /\
  h15m_aligned htf = true /\ h30m_aligned htf = false.
Proof. repeat split. Qed.

Example scenario_confirmed :
  let htf := htf_dict LONG (snap 0 0 59100 59000) (snap 0 0 59200 59000) in
  h15m_aligned htf = true /\ h30m_aligned htf = true.
Proof. repeat split. Qed.

Example all_aligned_run :
  fst (run env_all_aligned) = Ok Alerted /\
  gets (snd (run env_all_aligned)) = ["5m"; "15m"; "30m"]%string /\
  List.length (posts (snd (run env_all_aligned))) = 2%nat.
Proof. repeat split; vm_compute; reflexivity. Qed.

Example three_rows_run :
  fst (run env_three_rows) = Ok NoCrossover /\
  posts (snd (run env_three_rows)) = [msg_no_crossover].
Proof. split; vm_compute; reflexivity. Qed.

(** * Further properties *)

(** ** The EMA engine: prefixes and the span of one *)

Lemma calculate_ema_ok (df : DataFrame) (span : Z) :
  (1 <= span)%Z ->
  calculate_ema df span = Ok (ewm_mean ((inject_Z span - 1) / 2) (map close df)).
Proof.
  intros Hs. unfold calculate_ema, get_center_of_mass.
  destruct (span <? 1)%Z eqn:Hlt; [apply Z.ltb_lt in Hlt; lia | reflexivity].
Qed.

Lemma ewm_loop_firstn (alpha : Q) (vals more : list Q) :
  forall w : Q,
    firstn (List.length vals) (ewm_loop alpha w (vals ++ more)) =
    ewm_loop alpha w vals.
Proof.
  induction vals as [| c rest IH]; intros w; simpl.
  - reflexivity.
  - now rewrite IH.
Qed.

Lemma ewm_mean_firstn (com : Q) (vals more : list Q) :
  firstn (List.length vals) (ewm_mean com (vals ++ more)) = ewm_mean com vals.
Proof.
  destruct vals as [| v0 rest]; [reflexivity | ].
  simpl. now rewrite ewm_loop_firstn.
Qed.

(** X2: Later candles never change earlier averages: the series computed on
    a frame is the beginning of the series computed on that frame with
    more rows appended. *)
Theorem calculate_ema_prefix (df more : DataFrame) (span : Z) :
  (1 <= span)%Z ->
  exists out out' : list Q,
    calculate_ema df span = Ok out /\
    calculate_ema (df ++ more) span = Ok out' /\
    firstn (List.length df) out' = out.
Proof.
  intros Hs.
  rewrite (calculate_ema_ok df span Hs), (calculate_ema_ok (df ++ more) span Hs).
  do 2 eexists. split; [reflexivity | ]. split; [reflexivity | ].
  rewrite map_app, <- (length_map close df).
  apply ewm_mean_firstn.
Qed.

Lemma calculate_ema_prefix_witness :
  exists out out' : list Q,
    calculate_ema (firstn 3 rising) EMA_SLOW = Ok out /\
    calculate_ema (firstn 3 rising ++ flat) EMA_SLOW = Ok out' /\
    firstn (List.length (firstn 3 rising)) out' = out.
Proof.
  apply (calculate_ema_prefix (firstn 3 rising) flat EMA_SLOW).
  unfold EMA_SLOW. lia.
Defined.

Lemma ewm_loop_span_one (alpha : Q) (vals : list Q) :
  alpha == 1 ->
  forall w : Q, Forall2 Qeq (ewm_loop alpha w vals) vals.
Proof.
  intros Ha.
  induction vals as [| c rest IH]; intros w; simpl.
  - constructor.
  - constructor; [ | apply IH].
    rewrite ewm_step_recurrence, Ha. ring.
Qed.

(** X3: With a span of one the average is the price: [calculate_ema] returns
    the closing prices themselves. *)
Theorem calculate_ema_span_one (df : DataFrame) :
  exists out : list Q,
    calculate_ema df 1 = Ok out /\ Forall2 Qeq out (map close df).
Proof.
  rewrite (calculate_ema_ok df 1) by lia.
  eexists. split; [reflexivity | ].
  unfold ewm_mean. destruct (map close df) as [| v0 vs]; [constructor | ].
  constructor; [reflexivity | ].
  apply ewm_loop_span_one. reflexivity.
Qed.

(** ** What [get_ema_values] reads from the frame *)

Lemma iloc_from_end {A : Type} (s : list A) (k : nat) (d : A) :
  (1 <= k <= List.length s)%nat ->
  iloc s (- Z.of_nat k) = Ok (nth (List.length s - k) s d).
Proof.
  intros [Hk1 Hk2]. unfold iloc.
  replace (- Z.of_nat k <? 0)%Z with true by (symmetry; apply Z.ltb_lt; lia).
  replace ((Z.of_nat (List.length s) + - Z.of_nat k <? 0)
           || (Z.of_nat (List.length s)
               <=? Z.of_nat (List.length s) + - Z.of_nat k))%Z with false.
  2:{ symmetry. apply orb_false_iff. split;
      [apply Z.ltb_ge | apply Z.leb_gt]; lia. }
  replace (Z.to_nat (Z.of_nat (List.length s) + - Z.of_nat k))
    with (List.length s - k)%nat by lia.
  rewrite (nth_error_nth' s d) by lia. reflexivity.
Qed.

Lemma iloc_too_short {A : Type} (s : list A) (k : nat) :
  (List.length s < k)%nat ->
  iloc s (- Z.of_nat k) = Raise IndexError.
Proof.
  intros Hk. unfold iloc.
  replace (- Z.of_nat k <? 0)%Z with true by (symmetry; apply Z.ltb_lt; lia).
  replace (Z.of_nat (List.length s) + - Z.of_nat k <? 0)%Z with true
    by (symmetry; apply Z.ltb_lt; lia).
  reflexivity.
Qed.

Lemma fetch_klines_rows (E : env) (symbol interval : string) (limit c : Z)
    (rows : list kline) (tr : list event) :
  binance E symbol interval limit = Response c (Klines rows) ->
  status_ok c ->
  fetch_klines E symbol interval limit tr =
  (Ok rows, (tr ++ [Get symbol interval limit])%list).
Proof.
  intros Ha Hc. unfold status_ok in Hc.
  unfold fetch_klines, requests_get, bind, emit. rewrite Ha.
  unfold ret, raise_for_status. cbn [status_code body]. rewrite Hc.
  reflexivity.
Qed.

Lemma ema_series_length (span : Z) (df : DataFrame) :
  List.length (ema_series span df) = List.length df.
Proof. unfold ema_series. now rewrite ewm_mean_length, length_map. Qed.

(** The snapshot computed from an answer of at least three rows. *)
Lemma snapshot_of_rows (E : env) (symbol interval : string) (c : Z)
    (rows : list kline) :
  binance E symbol interval (EMA_SLOW + 10) = Response c (Klines rows) ->
  status_ok c ->
  (3 <= List.length rows)%nat ->
  let n := List.length rows in
  snapshot E symbol interval =
  Ok {| ema_fast := nth (n - 2) (ema_series EMA_FAST rows) 0;
        ema_slow := nth (n - 2) (ema_series EMA_SLOW rows) 0;
        ema_fast_prev := nth (n - 3) (ema_series EMA_FAST rows) 0;
        ema_slow_prev := nth (n - 3) (ema_series EMA_SLOW rows) 0;
        ev_close_time := nth (n - 2) (map close_time rows) 0%Z;
        close_price := nth (n - 2) (map close rows) 0 |}.
Proof.
  intros Ha Hc Hlen n. subst n.
  unfold snapshot, get_ema_values, bind.
  rewrite (fetch_klines_rows E symbol interval _ c rows [] Ha Hc).
  unfold lift, ret.
  rewrite (calculate_ema_ok rows EMA_FAST) by (unfold EMA_FAST; lia).
  rewrite (calculate_ema_ok rows EMA_SLOW) by (unfold EMA_SLOW; lia).
  fold (ema_series EMA_FAST rows). fold (ema_series EMA_SLOW rows).
  change (-2)%Z with (- Z.of_nat 2)%Z. change (-3)%Z with (- Z.of_nat 3)%Z.
  rewrite (iloc_from_end (ema_series EMA_FAST rows) 2 0)
    by (rewrite ema_series_length; lia).
  rewrite (iloc_from_end (ema_series EMA_SLOW rows) 2 0)
    by (rewrite ema_series_length; lia).
  rewrite (iloc_from_end (ema_series EMA_FAST rows) 3 0)
    by (rewrite ema_series_length; lia).
  rewrite (iloc_from_end (ema_series EMA_SLOW rows) 3 0)
    by (rewrite ema_series_length; lia).
  rewrite (iloc_from_end (map close_time rows) 2 0%Z)
    by (rewrite length_map; lia).
  rewrite (iloc_from_end (map close rows) 2 0)
    by (rewrite length_map; lia).
  rewrite !ema_series_length, !length_map.
  reflexivity.
Qed.

Lemma snapshot_of_few_rows (E : env) (symbol interval : string) (c : Z)
    (rows : list kline) :
  binance E symbol interval (EMA_SLOW + 10) = Response c (Klines rows) ->
  status_ok c ->
  (List.length rows < 3)%nat ->
  snapshot E symbol interval = Raise IndexError.
Proof.
  intros Ha Hc Hlen.
  unfold snapshot, get_ema_values, bind.
  rewrite (fetch_klines_rows E symbol interval _ c rows [] Ha Hc).
  destruct rows as [| a [| b [| k rest]]]; [reflexivity .. | ].
  simpl in Hlen. lia.
Qed.

(** X5: [get_ema_values] needs three candles.  On an answer that parses
    into rows it raises [IndexError] when there are fewer than three, the
    empty answer included, and returns values whenever there are three or
    more, however far below the requested seventy. *)
Theorem get_ema_values_needs_three_rows (E : env) (symbol interval : string)
    (c : Z) (rows : list kline) :
  binance E symbol interval (EMA_SLOW + 10) = Response c (Klines rows) ->
  status_ok c ->
  (snapshot E symbol interval = Raise IndexError <->
   (List.length rows < 3)%nat) /\
  ((exists v : EMAValues, snapshot E symbol interval = Ok v) <->
   (3 <= List.length rows)%nat).
Proof.
  intros Ha Hc.
  destruct (Nat.lt_ge_cases (List.length rows) 3) as [Hlt | Hge].
  - rewrite (snapshot_of_few_rows E symbol interval c rows Ha Hc Hlt).
    split; split; intros H; try assumption; try reflexivity.
    + destruct H as [v Hv]. discriminate Hv.
    + lia.
  - pose proof (snapshot_of_rows E symbol interval c rows Ha Hc Hge) as Hs.
    cbv zeta in Hs. rewrite Hs.
    split; split; intros H; try assumption.
    + discriminate H.
    + lia.
    + eexists. reflexivity.
Qed.

Lemma get_ema_values_needs_three_rows_witness :
  (snapshot env_three_rows SYMBOL "5m" = Raise IndexError <->
   (List.length (firstn 3 rising) < 3)%nat) /\
  ((exists v : EMAValues, snapshot env_three_rows SYMBOL "5m" = Ok v) <->
   (3 <= List.length (firstn 3 rising))%nat).
Proof.
  apply (get_ema_values_needs_three_rows env_three_rows SYMBOL "5m" 200
           (firstn 3 rising)).
  - reflexivity.
  - reflexivity.
Defined.

Lemma nth_app_mid {A : Type} (pre : list A) (a b c d : A) :
  nth (List.length pre) (pre ++ [a; b; c]) d = a /\
  nth (List.length pre + 1) (pre ++ [a; b; c]) d = b.
Proof.
  split.
  - rewrite app_nth2 by lia. now rewrite Nat.sub_diag.
  - rewrite app_nth2 by lia.
    now replace (List.length pre + 1 - List.length pre)%nat with 1%nat by lia.
Qed.

(** X6: The values describe the last closed candle: of the rows received, the
    last one is taken as still forming, and the close price and close time
    returned are those of the row before it. *)
Theorem snapshot_reads_last_closed_candle (E : env)
    (symbol interval : string) (c : Z) (pre : list kline)
    (prev closed forming : kline) :
  binance E symbol interval (EMA_SLOW + 10) =
    Response c (Klines (pre ++ [prev; closed; forming])) ->
  status_ok c ->
  exists v : EMAValues,
    snapshot E symbol interval = Ok v /\
    close_price v = close closed /\
    ev_close_time v = close_time closed.
Proof.
  intros Ha Hc.
  assert (Hlen : (3 <= List.length (pre ++ [prev; closed; forming]))%nat)
    by (rewrite length_app; simpl; lia).
  pose proof (snapshot_of_rows E symbol interval c _ Ha Hc Hlen) as Hs.
  cbv zeta in Hs. rewrite Hs.
  eexists. split; [reflexivity | ].
  cbn [close_price ev_close_time].
  rewrite length_app. cbn [List.length].
  replace (List.length pre + 3 - 2)%nat with (List.length pre + 1)%nat by lia.
  rewrite !map_app. cbn [map].
  pose proof (nth_app_mid (map close pre) (close prev) (close closed)
                (close forming) 0) as [_ H1].
  pose proof (nth_app_mid (map close_time pre) (close_time prev)
                (close_time closed) (close_time forming) 0%Z) as [_ H2].
  rewrite length_map in H1, H2.
  split; assumption.
Qed.

Lemma snapshot_reads_last_closed_candle_witness :
  exists v : EMAValues,
    snapshot env_all_aligned SYMBOL "15m" = Ok v /\
    close_price v = 20 /\
    ev_close_time v = 899999%Z.
Proof.
  apply (snapshot_reads_last_closed_candle env_all_aligned SYMBOL "15m" 200
           [mk_kline 0 10 299999] (mk_kline 300000 10 599999)
           (mk_kline 600000 20 899999) (mk_kline 900000 20 1199999)).
  - reflexivity.
  - reflexivity.
Defined.

Lemma ema_series_app (span : Z) (df more : DataFrame) (i : nat) :
  (i < List.length df)%nat ->
  nth i (ema_series span (df ++ more)) 0 = nth i (ema_series span df) 0.
Proof.
  intros Hi. unfold ema_series.
  rewrite <- (ewm_mean_firstn _ (map close df) (map close more)).
  rewrite map_app, length_map.
  rewrite nth_firstn.
  replace (i <? List.length df)%nat with true
    by (symmetry; now apply Nat.ltb_lt).
  reflexivity.
Qed.

(** The snapshot computed from an answer, written without its last row. *)
Lemma snapshot_without_last_row (E : env) (symbol interval : string) (c : Z)
    (rows : list kline) (forming : kline) :
  binance E symbol interval (EMA_SLOW + 10) =
    Response c (Klines (rows ++ [forming])) ->
  status_ok c ->
  let n := List.length rows in
  snapshot E symbol interval =
  if (n <? 2)%nat then Raise IndexError
  else Ok {| ema_fast := nth (n - 1) (ema_series EMA_FAST rows) 0;
             ema_slow := nth (n - 1) (ema_series EMA_SLOW rows) 0;
             ema_fast_prev := nth (n - 2) (ema_series EMA_FAST rows) 0;
             ema_slow_prev := nth (n - 2) (ema_series EMA_SLOW rows) 0;
             ev_close_time := nth (n - 1) (map close_time rows) 0%Z;
             close_price := nth (n - 1) (map close rows) 0 |}.
Proof.
  intros Ha Hc n. subst n.
  assert (Hl : List.length (rows ++ [forming]) = S (List.length rows))
    by (rewrite length_app; simpl; lia).
  destruct (List.length rows <? 2)%nat eqn:Hlt.
  - apply Nat.ltb_lt in Hlt.
    apply (snapshot_of_few_rows E symbol interval c _ Ha Hc).
    rewrite Hl. lia.
  - apply Nat.ltb_ge in Hlt.
    pose proof (snapshot_of_rows E symbol interval c _ Ha Hc) as Hs.
    cbv zeta in Hs. rewrite Hs by (rewrite Hl; lia).
    rewrite Hl.
    replace (S (List.length rows) - 2)%nat with (List.length rows - 1)%nat
      by lia.
    replace (S (List.length rows) - 3)%nat with (List.length rows - 2)%nat
      by lia.
    rewrite !ema_series_app by lia.
    rewrite !map_app.
    rewrite !(app_nth1 (map close rows)) by (rewrite length_map; lia).
    rewrite !(app_nth1 (map close_time rows)) by (rewrite length_map; lia).
    reflexivity.
Qed.

(** X7: The still-forming candle is never looked at: two answers that differ
    in their last row only give the same result, values or exception. *)
Theorem snapshot_ignores_forming_candle (E E' : env)
    (symbol interval : string) (c c' : Z) (rows : list kline)
    (forming forming' : kline) :
  binance E symbol interval (EMA_SLOW + 10) =
    Response c (Klines (rows ++ [forming])) ->
  binance E' symbol interval (EMA_SLOW + 10) =
    Response c' (Klines (rows ++ [forming'])) ->
  status_ok c ->
  status_ok c' ->
  snapshot E symbol interval = snapshot E' symbol interval.
Proof.
  intros Ha Ha' Hc Hc'.
  pose proof (snapshot_without_last_row E symbol interval c rows forming
                Ha Hc) as H1.
  pose proof (snapshot_without_last_row E' symbol interval c' rows forming'
                Ha' Hc') as H2.
  cbv zeta in H1, H2. rewrite H1, H2. reflexivity.
Qed.

Lemma snapshot_ignores_forming_candle_witness :
  snapshot (sample_env (Response 200 (Klines rising)) NoResponse NoResponse)
    SYMBOL "5m"
  = snapshot
      (sample_env (Response 200 (Klines (candles 10 10 20 99)))
                  NoResponse NoResponse)
      SYMBOL "5m".
Proof.
  apply (snapshot_ignores_forming_candle _ _ SYMBOL "5m" 200 200
           (firstn 3 rising) (mk_kline 900000 20 1199999)
           (mk_kline 900000 99 1199999)).
  - reflexivity.
  - reflexivity.
  - reflexivity.
  - reflexivity.
Defined.

(** ** The trace of a run *)

Ltac finish_transcript :=
  unfold bind, print, emit, ret, raise;
  repeat rewrite send_telegram_alert_run;
  cbn [snd];
  repeat rewrite posts_app; cbn [posts app List.length];
  unfold sending, request, header;
  repeat rewrite <- app_assoc; cbn [app];
  reflexivity.

Lemma run_transcript (E : env) : snd (run E) = transcript E.
Proof.
  unfold run, main, transcript, error_line.
  unfold bind at 1. unfold print at 1, emit at 1. cbn [app].
  unfold try_except.
  unfold bind at 1. rewrite get_ema_values_run.
  destruct (snapshot E SYMBOL "5m") as [data_5m | e].
  2:{ destruct (is_RequestException e); finish_transcript. }
  destruct (check_ema_crossover data_5m) as [d | ].
  2:{ finish_transcript. }
  unfold bind at 1. rewrite send_telegram_alert_run.
  unfold bind at 1. rewrite check_htf_alignment_run.
  destruct (snapshot E SYMBOL "15m") as [htf_15m | e].
  2:{ destruct (is_RequestException e); finish_transcript. }
  destruct (snapshot E SYMBOL "30m") as [htf_30m | e].
  2:{ destruct (is_RequestException e); finish_transcript. }
  cbv zeta.
  destruct (negb (h15m_aligned (htf_dict d htf_15m htf_30m))).
  { finish_transcript. }
  destruct (negb (h30m_aligned (htf_dict d htf_15m htf_30m))).
  { finish_transcript. }
  finish_transcript.
Qed.

Lemma outline_fst (E : env) : fst (run E) = fst (fst (outline E)).
Proof. now rewrite <- run_outline. Qed.

Lemma outline_gets (E : env) : gets (snd (run E)) = snd (fst (outline E)).
Proof. now rewrite <- run_outline. Qed.

Lemma outline_posts (E : env) : posts (snd (run E)) = snd (outline E).
Proof. now rewrite <- run_outline. Qed.

(** X10: What a run may ask and say: every request is for BTCUSDT with a
    limit of 70; the intervals requested are 5m, or 5m then 15m, or 5m
    then 15m then 30m; at most two messages are posted. *)
Theorem run_requests_and_posts_are_bounded (E : env) :
  Forall (fun ev => match ev with
                    | Get symbol _ limit => symbol = SYMBOL /\ limit = 70%Z
                    | _ => True
                    end) (snd (run E)) /\
  (gets (snd (run E)) = ["5m"]%string \/
   gets (snd (run E)) = ["5m"; "15m"]%string \/
   gets (snd (run E)) = ["5m"; "15m"; "30m"]%string) /\
  (List.length (posts (snd (run E))) <= 2)%nat.
Proof.
  split; [ | split].
  - rewrite run_transcript. unfold transcript, sending, request, header,
      error_line.
    destruct (snapshot E SYMBOL "5m") as [data_5m | e];
      [ | repeat constructor].
    destruct (check_ema_crossover data_5m) as [d | ];
      [ | repeat constructor].
    destruct (snapshot E SYMBOL "15m") as [htf_15m | e];
      [ | repeat constructor].
    destruct (snapshot E SYMBOL "30m") as [htf_30m | e];
      [ | repeat constructor].
    cbv zeta.
    destruct (negb (h15m_aligned (htf_dict d htf_15m htf_30m)));
      [repeat constructor | ].
    destruct (negb (h30m_aligned (htf_dict d htf_15m htf_30m)));
      repeat constructor.
  - rewrite outline_gets. unfold outline.
    destruct (snapshot E SYMBOL "5m") as [data_5m | e]; [ | now left].
    destruct (check_ema_crossover data_5m) as [d | ]; [ | now left].
    destruct (snapshot E SYMBOL "15m") as [htf_15m | e];
      [ | right; now left].
    destruct (snapshot E SYMBOL "30m") as [htf_30m | e];
      [ | right; now right].
    cbv zeta.
    destruct (negb (h15m_aligned (htf_dict d htf_15m htf_30m)));
      [right; now right | ].
    destruct (negb (h30m_aligned (htf_dict d htf_15m htf_30m)));
      right; now right.
  - rewrite outline_posts. unfold outline.
    destruct (snapshot E SYMBOL "5m") as [data_5m | e]; [ | simpl; lia].
    destruct (check_ema_crossover data_5m) as [d | ]; [ | simpl; lia].
    destruct (snapshot E SYMBOL "15m") as [htf_15m | e]; [ | simpl; lia].
    destruct (snapshot E SYMBOL "30m") as [htf_30m | e]; [ | simpl; lia].
    cbv zeta.
    destruct (negb (h15m_aligned (htf_dict d htf_15m htf_30m)));
      [simpl; lia | ].
    destruct (negb (h30m_aligned (htf_dict d htf_15m htf_30m)));
      simpl; lia.
Qed.

(** X11: The higher timeframes are requested exactly when the 5m values were
    obtained and show a crossover. *)
Theorem htf_requested_iff_crossover (E : env) :
  In "15m"%string (gets (snd (run E))) <->
  exists (data_5m : EMAValues) (d : direction),
    snapshot E SYMBOL "5m" = Ok data_5m /\
    check_ema_crossover data_5m = Some d.
Proof.
  rewrite outline_gets. unfold outline.
  destruct (snapshot E SYMBOL "5m") as [data_5m | e].
  2:{ split.
      - intros [H | []]. discriminate H.
      - intros (v & d & H & _). discriminate H. }
  destruct (check_ema_crossover data_5m) as [d | ] eqn:Hc.
  2:{ split.
      - intros [H | []]. discriminate H.
      - intros (v & d & H & Hd). injection H as <-.
        rewrite Hc in Hd. discriminate Hd. }
  split.
  - intros _. exists data_5m, d. split; [reflexivity | exact Hc].
  - intros _.
    destruct (snapshot E SYMBOL "15m") as [htf_15m | e];
      [ | right; now left].
    destruct (snapshot E SYMBOL "30m") as [htf_30m | e];
      [ | right; now left].
    cbv zeta.
    destruct (negb (h15m_aligned (htf_dict d htf_15m htf_30m)));
      [right; now left | ].
    destruct (negb (h30m_aligned (htf_dict d htf_15m htf_30m)));
      right; now left.
Qed.

(** X12: Which exceptions leave [main]: a request exception never does (the
    run returns normally after it); an exception of another class raised
    while getting the values of some timeframe is raised again unchanged,
    and nothing else is ever raised. *)
Theorem main_reraises_only_frame_errors (E : env) :
  (forall e : exn,
     fst (run E) = Raise e ->
     is_RequestException e = false /\
     exists interval : string,
       In interval (gets (snd (run E))) /\
       snapshot E SYMBOL interval = Raise e) /\
  (fst (run E) = Ok ApiError ->
   exists (interval : string) (e : exn),
     In interval (gets (snd (run E))) /\
     snapshot E SYMBOL interval = Raise e /\
     is_RequestException e = true).
Proof.
  rewrite outline_fst, outline_gets. unfold outline, handled.
  destruct (snapshot E SYMBOL "5m") as [data_5m | e5] eqn:H5.
  2:{ cbn [fst snd]. destruct (is_RequestException e5) eqn:Hr; split.
      - intros e H. discriminate H.
      - intros _. exists "5m"%string, e5. repeat split; auto. now left.
      - intros e H. injection H as <-. split; [exact Hr | ].
        exists "5m"%string. split; [now left | exact H5].
      - intros H. discriminate H. }
  destruct (check_ema_crossover data_5m) as [d | ].
  2:{ cbn [fst snd]. split; [intros e H | intros H]; discriminate H. }
  destruct (snapshot E SYMBOL "15m") as [htf_15m | e15] eqn:H15.
  2:{ cbn [fst snd]. destruct (is_RequestException e15) eqn:Hr; split.
      - intros e H. discriminate H.
      - intros _. exists "15m"%string, e15. repeat split; auto.
        right; now left.
      - intros e H. injection H as <-. split; [exact Hr | ].
        exists "15m"%string. split; [right; now left | exact H15].
      - intros H. discriminate H. }
  destruct (snapshot E SYMBOL "30m") as [htf_30m | e30] eqn:H30.
  2:{ cbn [fst snd]. destruct (is_RequestException e30) eqn:Hr; split.
      - intros e H. discriminate H.
      - intros _. exists "30m"%string, e30. repeat split; auto.
        right; right; now left.
      - intros e H. injection H as <-. split; [exact Hr | ].
        exists "30m"%string. split; [right; right; now left | exact H30].
      - intros H. discriminate H. }
  cbv zeta.
  destruct (negb (h15m_aligned (htf_dict d htf_15m htf_30m))).
  { cbn [fst snd]. split; [intros e H | intros H]; discriminate H. }
  destruct (negb (h30m_aligned (htf_dict d htf_15m htf_30m)));
    cbn [fst snd]; (split; [intros e H | intros H]; discriminate H).
Qed.

(** X13: A run that ends in ERROR has the exception printed as the last thing
    it does, under "API error: " when it is a request exception (and the
    run returns) and under "Error: " otherwise (and the exception is
    raised again). *)
Theorem error_is_printed_last (E : env) :
  terminal_state (fst (run E)) = ERROR ->
  exists e : exn,
    last (snd (run E)) (header E) = error_line e /\
    fst (run E) = handled e.
Proof.
  rewrite run_transcript, outline_fst.
  unfold transcript, outline, handled.
  destruct (snapshot E SYMBOL "5m") as [data_5m | e].
  { destruct (check_ema_crossover data_5m) as [d | ].
    2:{ intros H. discriminate H. }
    destruct (snapshot E SYMBOL "15m") as [htf_15m | e].
    2:{ intros _. exists e. split; reflexivity. }
    destruct (snapshot E SYMBOL "30m") as [htf_30m | e].
    2:{ intros _. exists e. split; reflexivity. }
    cbv zeta.
    destruct (negb (h15m_aligned (htf_dict d htf_15m htf_30m))).
    { intros H. discriminate H. }
    destruct (negb (h30m_aligned (htf_dict d htf_15m htf_30m)));
      intros H; discriminate H. }
  intros _. exists e. split; reflexivity.
Qed.

Lemma error_is_printed_last_witness :
  exists e : exn,
    last (snd (run env_unreachable)) (header env_unreachable) = error_line e /\
    fst (run env_unreachable) = handled e.
Proof.
  apply (error_is_printed_last env_unreachable).
  vm_compute. reflexivity.
Defined.

Lemma send_log_is_send_log (r : http_response unit) :
  is_send_log (send_log r) = true.
Proof.
  destruct r as [| c u]; [reflexivity | ].
  unfold send_log. destruct ((400 <=? c) && (c <? 600))%Z; reflexivity.
Qed.

(** X14: Every post of a run is followed at once by the line that says whether
    it was delivered. *)
Theorem posts_are_logged (E : env) : posts_logged (snd (run E)) = true.
Proof.
  rewrite run_transcript.
  unfold transcript, sending, request, header, error_line.
  destruct (snapshot E SYMBOL "5m") as [data_5m | e]; [ | reflexivity].
  destruct (check_ema_crossover data_5m) as [d | ].
  2:{ cbn [app posts_logged]. now rewrite send_log_is_send_log. }
  destruct (snapshot E SYMBOL "15m") as [htf_15m | e].
  2:{ cbn [app posts_logged]. now rewrite send_log_is_send_log. }
  destruct (snapshot E SYMBOL "30m") as [htf_30m | e].
  2:{ cbn [app posts_logged]. now rewrite send_log_is_send_log. }
  cbv zeta.
  destruct (negb (h15m_aligned (htf_dict d htf_15m htf_30m))).
  { cbn [app posts_logged]. now rewrite !send_log_is_send_log. }
  destruct (negb (h30m_aligned (htf_dict d htf_15m htf_30m)));
    cbn [app posts_logged]; now rewrite !send_log_is_send_log.
Qed.

(** ** Failures of the first fetch *)

Lemma snapshot_of_failure (E : env) (symbol interval : string) :
  match binance E symbol interval (EMA_SLOW + 10) with
  | NoResponse => snapshot E symbol interval = Raise ConnectionError
  | Response c b =>
      if ((400 <=? c) && (c <? 600))%Z
      then snapshot E symbol interval = Raise HTTPError
      else match b with
           | NotJson => snapshot E symbol interval = Raise JSONDecodeError
           | ObjectBody => snapshot E symbol interval = Raise IndexError
           | Klines _ => True
           end
  end.
Proof.
  unfold snapshot, get_ema_values, fetch_klines, requests_get, bind, emit.
  destruct (binance E symbol interval (EMA_SLOW + 10)) as [| c b];
    [reflexivity | ].
  unfold ret, raise_for_status. cbn [status_code body].
  destruct ((400 <=? c) && (c <? 600))%Z; [reflexivity | ].
  destruct b; [reflexivity | reflexivity | exact I].
Qed.

(** X15: When the 5m request gets no answer, an error status or a body that is
    not JSON, the run returns normally having made that one request and
    posted nothing. *)
Theorem request_failure_ends_quietly (E : env) :
  binance E SYMBOL "5m" (EMA_SLOW + 10) = NoResponse \/
  (exists (c : Z) (b : klines_body),
     binance E SYMBOL "5m" (EMA_SLOW + 10) = Response c b /\
     (~ status_ok c \/ b = NotJson)) ->
  fst (run E) = Ok ApiError /\
  gets (snd (run E)) = ["5m"]%string /\
  posts (snd (run E)) = [].
Proof.
  intros H.
  assert (Hs : exists e : exn,
             snapshot E SYMBOL "5m" = Raise e /\
             is_RequestException e = true).
  { pose proof (snapshot_of_failure E SYMBOL "5m") as Hf.
    destruct H as [Ha | (c & b & Ha & Hb)]; rewrite Ha in Hf.
    - now exists ConnectionError.
    - unfold status_ok in Hb.
      destruct ((400 <=? c) && (c <? 600))%Z.
      + now exists HTTPError.
      + destruct Hb as [Hb | ->]; [now contradiction Hb | ].
        now exists JSONDecodeError. }
  destruct Hs as (e & Hs & He).
  rewrite outline_fst, outline_gets, outline_posts.
  unfold outline, handled. rewrite Hs, He. repeat split.
Qed.

Lemma request_failure_ends_quietly_witness :
  fst (run env_unreachable) = Ok ApiError /\
  gets (snd (run env_unreachable)) = ["5m"]%string /\
  posts (snd (run env_unreachable)) = [].
Proof.
  apply (request_failure_ends_quietly env_unreachable).
  left. reflexivity.
Defined.

(** X16: When the 5m answer has a good status but gives a frame of fewer
    than three rows, because the body is an object or an array of too few
    rows, the run ends by raising [IndexError] after that one request,
    with nothing posted. *)
Theorem unusable_frame_is_raised (E : env) (c : Z) (b : klines_body) :
  binance E SYMBOL "5m" (EMA_SLOW + 10) = Response c b ->
  status_ok c ->
  (b = ObjectBody ->
   fst (run E) = Raise IndexError /\
   gets (snd (run E)) = ["5m"]%string /\ posts (snd (run E)) = []) /\
  (forall rows : list kline,
     b = Klines rows ->
     (List.length rows < 3)%nat ->
     fst (run E) = Raise IndexError /\
     gets (snd (run E)) = ["5m"]%string /\ posts (snd (run E)) = []).
Proof.
  intros Ha Hc.
  rewrite outline_fst, outline_gets, outline_posts.
  unfold outline, handled.
  split.
  - intros ->.
    pose proof (snapshot_of_failure E SYMBOL "5m") as Hf.
    rewrite Ha in Hf. unfold status_ok in Hc. rewrite Hc in Hf.
    rewrite Hf. repeat split.
  - intros rows -> Hlen.
    rewrite (snapshot_of_few_rows E SYMBOL "5m" c rows Ha Hc Hlen).
    repeat split.
Qed.

Lemma unusable_frame_is_raised_witness :
  let E := sample_env (Response 200 (Klines (firstn 2 rising)))
                      NoResponse NoResponse in
  fst (run E) = Raise IndexError /\
  gets (snd (run E)) = ["5m"]%string /\ posts (snd (run E)) = [].
Proof.
  intros E.
  destruct (unusable_frame_is_raised E 200 (Klines (firstn 2 rising)))
    as [_ Hrows]; [reflexivity | reflexivity | ].
  apply (Hrows (firstn 2 rising)); [reflexivity | simpl; lia].
Defined.

(** ** Directions and orderings *)

Lemma Qltb_Qgtb_swap (a b : Q) : Qltb a b = Qgtb b a.
Proof. reflexivity. Qed.

(** X17: The detector treats the two directions alike: exchanging the fast and
    the slow average turns LONG into SHORT, SHORT into LONG and leaves no
    crossover as it is. *)
Theorem check_ema_crossover_swap (s : EMAValues) :
  check_ema_crossover (swap_averages s) =
  option_map opposite (check_ema_crossover s).
Proof.
  unfold check_ema_crossover, swap_averages.
  cbn [ema_fast ema_slow ema_fast_prev ema_slow_prev].
  unfold Qleb, Qgeb.
  rewrite (Qltb_Qgtb_swap (ema_slow s) (ema_fast s)).
  rewrite (Qltb_Qgtb_swap (ema_fast s) (ema_slow s)).
  pose proof (Qgtb_spec (ema_fast s) (ema_slow s)) as Hgt.
  pose proof (Qgtb_spec (ema_slow s) (ema_fast s)) as Hlt.
  destruct (Qle_bool (ema_fast_prev s) (ema_slow_prev s));
    destruct (Qle_bool (ema_slow_prev s) (ema_fast_prev s));
    destruct (Qgtb (ema_fast s) (ema_slow s));
    destruct (Qgtb (ema_slow s) (ema_fast s));
    try reflexivity;
    exfalso;
    (assert (H1 : ema_slow s < ema_fast s) by (now apply Hgt));
    (assert (H2 : ema_fast s < ema_slow s) by (now apply Hlt));
    lra.
Qed.

(** X18: A direction does not fire twice in a row: when the previous averages
    of a second snapshot are the current averages of a first one on which
    the detector answered [d], it does not answer [d] on the second. *)
Theorem check_ema_crossover_no_repeat (s s' : EMAValues) (d : direction) :
  ema_fast_prev s' == ema_fast s ->
  ema_slow_prev s' == ema_slow s ->
  check_ema_crossover s = Some d ->
  check_ema_crossover s' <> Some d.
Proof.
  intros Hf Hs Hc Hc'.
  unfold check_ema_crossover in Hc, Hc'.
  destruct (Qleb (ema_fast_prev s) (ema_slow_prev s) &&
            Qgtb (ema_fast s) (ema_slow s)) eqn:Hlong.
  - injection Hc as <-.
    apply andb_true_iff in Hlong. destruct Hlong as [_ H2].
    apply Qgtb_spec in H2.
    destruct (Qleb (ema_fast_prev s') (ema_slow_prev s') &&
              Qgtb (ema_fast s') (ema_slow s')) eqn:Hlong'.
    + apply andb_true_iff in Hlong'. destruct Hlong' as [H1' _].
      apply Qleb_spec in H1'. rewrite Hf, Hs in H1'. lra.
    + destruct (Qgeb (ema_fast_prev s') (ema_slow_prev s') &&
                Qltb (ema_fast s') (ema_slow s')); discriminate Hc'.
  - destruct (Qgeb (ema_fast_prev s) (ema_slow_prev s) &&
              Qltb (ema_fast s) (ema_slow s)) eqn:Hshort; [ | discriminate Hc].
    injection Hc as <-.
    apply andb_true_iff in Hshort. destruct Hshort as [_ H2].
    apply Qltb_spec in H2.
    destruct (Qleb (ema_fast_prev s') (ema_slow_prev s') &&
              Qgtb (ema_fast s') (ema_slow s')); [discriminate Hc' | ].
    destruct (Qgeb (ema_fast_prev s') (ema_slow_prev s') &&
              Qltb (ema_fast s') (ema_slow s')) eqn:Hshort';
      [ | discriminate Hc'].
    apply andb_true_iff in Hshort'. destruct Hshort' as [H1' _].
    apply Qgeb_spec in H1'. rewrite Hf, Hs in H1'. lra.
Qed.

Lemma check_ema_crossover_no_repeat_witness :
  check_ema_crossover (snap 10 12 13 12) = Some LONG /\
  check_ema_crossover (snap 13 12 14 12) <> Some LONG.
Proof.
  split; [reflexivity | ].
  apply (check_ema_crossover_no_repeat (snap 10 12 13 12) (snap 13 12 14 12)).
  - reflexivity.
  - reflexivity.
  - reflexivity.
Defined.

(** The two ordering tests on one pair of averages. *)
Lemma ordering_tests (v : EMAValues) :
  (Qgtb (ema_fast v) (ema_slow v) && Qltb (ema_fast v) (ema_slow v) = false) /\
  (Qgtb (ema_fast v) (ema_slow v) = false /\
   Qltb (ema_fast v) (ema_slow v) = false <->
   ema_fast v == ema_slow v).
Proof.
  pose proof (Qgtb_spec (ema_fast v) (ema_slow v)) as Hgt.
  pose proof (Qltb_spec (ema_fast v) (ema_slow v)) as Hlt.
  destruct (Qgtb (ema_fast v) (ema_slow v)) eqn:Eg;
    destruct (Qltb (ema_fast v) (ema_slow v)) eqn:El; cbn [andb].
  - exfalso.
    assert (H1 : ema_slow v < ema_fast v) by now apply Hgt.
    assert (H2 : ema_fast v < ema_slow v) by now apply Hlt.
    lra.
  - split; [reflexivity | ]. split.
    + intros [H _]. discriminate H.
    + intros Heq. exfalso.
      assert (H1 : ema_slow v < ema_fast v) by now apply Hgt.
      lra.
  - split; [reflexivity | ]. split.
    + intros [_ H]. discriminate H.
    + intros Heq. exfalso.
      assert (H2 : ema_fast v < ema_slow v) by now apply Hlt.
      lra.
  - split; [reflexivity | ]. split.
    + intros _.
      destruct (Qlt_le_dec (ema_slow v) (ema_fast v)) as [H | H1].
      { apply Hgt in H. discriminate H. }
      destruct (Qlt_le_dec (ema_fast v) (ema_slow v)) as [H | H2].
      { apply Hlt in H. discriminate H. }
      lra.
    + intros _. split; reflexivity.
Qed.

(** X19: A timeframe is never aligned with both directions, and it is aligned
    with neither exactly when its two averages are equal. *)
Theorem alignment_is_exclusive (htf_15m htf_30m : EMAValues) :
  (h15m_aligned (htf_dict LONG htf_15m htf_30m) &&
   h15m_aligned (htf_dict SHORT htf_15m htf_30m) = false) /\
  (h30m_aligned (htf_dict LONG htf_15m htf_30m) &&
   h30m_aligned (htf_dict SHORT htf_15m htf_30m) = false) /\
  (h15m_aligned (htf_dict LONG htf_15m htf_30m) = false /\
   h15m_aligned (htf_dict SHORT htf_15m htf_30m) = false <->
   ema_fast htf_15m == ema_slow htf_15m) /\
  (h30m_aligned (htf_dict LONG htf_15m htf_30m) = false /\
   h30m_aligned (htf_dict SHORT htf_15m htf_30m) = false <->
   ema_fast htf_30m == ema_slow htf_30m).
Proof.
  destruct (ordering_tests htf_15m) as [A15 B15].
  destruct (ordering_tests htf_30m) as [A30 B30].
  cbn [htf_dict h15m_aligned h30m_aligned].
  repeat split; try assumption; try (apply B15); try (apply B30);
    try tauto.
Qed.

(** X20: Equal averages on a higher timeframe block every signal: a run in
    which the 15m or the 30m averages are equal does not end CONFIRMED. *)
Theorem equal_htf_averages_block_confirmation (E : env) (interval : string)
    (h : EMAValues) :
  interval = "15m"%string \/ interval = "30m"%string ->
  snapshot E SYMBOL interval = Ok h ->
  ema_fast h == ema_slow h ->
  terminal_state (fst (run E)) <> CONFIRMED.
Proof.
  intros Hi Hs Heq.
  rewrite outline_fst. unfold outline, handled.
  destruct (snapshot E SYMBOL "5m") as [data_5m | e].
  2:{ cbn [fst]. destruct (is_RequestException e); discriminate. }
  destruct (check_ema_crossover data_5m) as [d | ]; [ | discriminate].
  destruct (snapshot E SYMBOL "15m") as [htf_15m | e] eqn:H15.
  2:{ cbn [fst]. destruct (is_RequestException e); discriminate. }
  destruct (snapshot E SYMBOL "30m") as [htf_30m | e] eqn:H30.
  2:{ cbn [fst]. destruct (is_RequestException e); discriminate. }
  cbv zeta.
  destruct (htf_dict_flags d htf_15m htf_30m) as [F15 F30].
  destruct Hi as [-> | ->].
  - rewrite H15 in Hs. injection Hs as <-.
    destruct (ordering_tests htf_15m) as [_ B15].
    apply B15 in Heq. destruct Heq as [HL HS].
    assert (Hd : h15m_aligned (htf_dict d htf_15m htf_30m) = false)
      by (rewrite F15; destruct d; assumption).
    rewrite Hd. discriminate.
  - rewrite H30 in Hs. injection Hs as <-.
    destruct (ordering_tests htf_30m) as [_ B30].
    apply B30 in Heq. destruct Heq as [HL HS].
    assert (Hd : h30m_aligned (htf_dict d htf_15m htf_30m) = false)
      by (rewrite F30; destruct d; assumption).
    rewrite Hd.
    destruct (negb (h15m_aligned (htf_dict d htf_15m htf_30m)));
      discriminate.
Qed.

Lemma equal_htf_averages_block_confirmation_witness :
  let E := sample_env (Response 200 (Klines rising))
                      (Response 200 (Klines flat))
                      (Response 200 (Klines rising)) in
  terminal_state (fst (run E)) <> CONFIRMED.
Proof.
  intros E.
  eapply (equal_htf_averages_block_confirmation E "15m").
  - left. reflexivity.
  - vm_compute. reflexivity.
  - vm_compute. reflexivity.
Defined.

(** ** More on the pipeline *)

(** X21: Which rejection is reported: with the crossover fired and both
    higher timeframes obtained, the run stops at the 15m check exactly
    when 15m is against the signal, also when 30m is against it too, and
    at the 30m check exactly when 15m is aligned and 30m is not. *)
Theorem rejection_names_first_failing_timeframe (E : env)
    (data_5m htf_15m htf_30m : EMAValues) (d : direction) :
  snapshot E SYMBOL "5m" = Ok data_5m ->
  check_ema_crossover data_5m = Some d ->
  snapshot E SYMBOL "15m" = Ok htf_15m ->
  snapshot E SYMBOL "30m" = Ok htf_30m ->
  (fst (run E) = Ok Skipped15m <->
   h15m_aligned (htf_dict d htf_15m htf_30m) = false) /\
  (fst (run E) = Ok Skipped30m <->
   h15m_aligned (htf_dict d htf_15m htf_30m) = true /\
   h30m_aligned (htf_dict d htf_15m htf_30m) = false).
Proof.
  intros H5 Hc H15 H30.
  rewrite outline_fst. unfold outline.
  rewrite H5, Hc, H15, H30. cbv zeta.
  destruct (h15m_aligned (htf_dict d htf_15m htf_30m));
    destruct (h30m_aligned (htf_dict d htf_15m htf_30m));
    cbn [negb fst]; split; split;
    try (intros H; discriminate H);
    try (intros [H1 H2]; discriminate);
    try (intros _; reflexivity);
    try (intros _; split; reflexivity).
Qed.

Lemma rejection_names_first_failing_timeframe_witness :
  let E := sample_env (Response 200 (Klines rising))
                      (Response 200 (Klines falling))
                      (Response 200 (Klines falling)) in
  fst (run E) = Ok Skipped15m.
Proof.
  intros E.
  edestruct (rejection_names_first_failing_timeframe E) as [[_ H] _];
    [ vm_compute; reflexivity | vm_compute; reflexivity
    | vm_compute; reflexivity | vm_compute; reflexivity | ].
  apply H. vm_compute. reflexivity.
Defined.

(** X23: The still-forming candles do not influence a run: two environments
    whose answers for each of the three intervals differ in the last row
    only end the same way and post the same messages. *)
Theorem run_ignores_forming_candles (E E' : env) :
  (forall interval : string,
     In interval ["5m"; "15m"; "30m"]%string ->
     exists (c c' : Z) (rows : list kline) (forming forming' : kline),
       binance E SYMBOL interval (EMA_SLOW + 10) =
         Response c (Klines (rows ++ [forming])) /\
       binance E' SYMBOL interval (EMA_SLOW + 10) =
         Response c' (Klines (rows ++ [forming'])) /\
       status_ok c /\ status_ok c') ->
  fst (run E) = fst (run E') /\
  posts (snd (run E)) = posts (snd (run E')).
Proof.
  intros H.
  assert (Hs : forall interval : string,
             In interval ["5m"; "15m"; "30m"]%string ->
             snapshot E SYMBOL interval = snapshot E' SYMBOL interval).
  { intros interval Hi.
    destruct (H interval Hi) as (c & c' & rows & f & f' & Ha & Ha' & Hc & Hc').
    pose proof (snapshot_without_last_row E SYMBOL interval c rows f
                  Ha Hc) as H1.
    pose proof (snapshot_without_last_row E' SYMBOL interval c' rows f'
                  Ha' Hc') as H2.
    cbv zeta in H1, H2. rewrite H1, H2. reflexivity. }
  assert (Ho : outline E = outline E').
  { unfold outline.
    rewrite (Hs "5m"%string) by (now left).
    rewrite (Hs "15m"%string) by (right; now left).
    rewrite (Hs "30m"%string) by (right; right; now left).
    reflexivity. }
  rewrite !outline_fst, !outline_posts, Ho. split; reflexivity.
Qed.

Lemma run_ignores_forming_candles_witness :
  let E := sample_env (Response 200 (Klines rising))
                      (Response 200 (Klines rising))
                      (Response 200 (Klines rising)) in
  let E' := sample_env (Response 200 (Klines (candles 10 10 20 99)))
                       (Response 200 (Klines (candles 10 10 20 1)))
                       (Response 200 (Klines (candles 10 10 20 50))) in
  fst (run E) = fst (run E') /\
  posts (snd (run E)) = posts (snd (run E')).
Proof.
  intros E E'.
  apply (run_ignores_forming_candles E E').
  intros interval Hi.
  exists 200%Z, 200%Z, (firstn 3 rising), (mk_kline 900000 20 1199999).
  destruct Hi as [<- | [<- | [<- | []]]].
  - exists (mk_kline 900000 99 1199999). repeat split; reflexivity.
  - exists (mk_kline 900000 1 1199999). repeat split; reflexivity.
  - exists (mk_kline 900000 50 1199999). repeat split; reflexivity.
Defined.
